(** * Nova's Auto Center booking backend: a shallow embedding of
      [src/public/Booking.js] (the Express server part of the file) and the
      properties of its route handlers.

    The server is a set of route handlers over three collaborators: the
    Mongoose [Booking] model (a document store), the Nodemailer transporter
    and the [jsonwebtoken] verifier.  The handlers are embedded as pure
    functions over an explicit store; the collaborators' run-time outcomes
    (whether a store call or a mail send rejects, whether a token verifies,
    the clock) come from an environment record that every handler reads.

    The file opens with a second schema (bookingDate, serviceType,
    carModel); the server does not use it and defines its own, which is the
    one embedded here. *)

From Stdlib Require Import List String Ascii ZArith NArith Bool Arith Lia.
From Stdlib Require Import Permutation Sorted DecimalString.
Import ListNotations.
Open Scope string_scope.

Set Warnings "-register-all".

(** ** JavaScript values, as [express.json()] hands them to a handler *)

(** A parsed JSON value, plus [undefined] for a key that is absent from the
    request body.  Numbers are restricted to integers. *)
Inductive jsval : Type :=
| JUndefined
| JNull
| JBool (b : bool)
| JNum (n : Z)
| JStr (s : string)
| JArr (items : list jsval)
| JObj (props : list (string * jsval)).

(** JavaScript truthiness, the meaning of [!v] in the create handler. *)
Definition truthy (v : jsval) : bool :=
  match v with
  | JUndefined | JNull => false
  | JBool b => b
  | JNum n => negb (n =? 0)%Z
  | JStr s => negb (s =? "")
  | JArr _ | JObj _ => true
  end.

(** Property lookup in an object literal. *)
Fixpoint js_get (k : string) (props : list (string * jsval)) : jsval :=
  match props with
  | [] => JUndefined
  | (k', v) :: rest => if k =? k' then v else js_get k rest
  end.

(** ** The Booking schema (lines 66-86) *)

(** A persisted document.  [_id], [createdAt] and [updatedAt] are managed by
    Mongoose ([timestamps: true]); [status] and [archived] carry the schema
    defaults at creation. *)
Record Booking : Type := mkBooking {
  _id : nat;
  name : string;
  email : string;
  phone : string;
  service : string;
  date : string;
  message : option string;
  status : string;
  archived : bool;
  createdAt : Z;
  updatedAt : Z
}.

(** The collection: its documents in insertion (natural) order, and the
    number of identifiers handed out so far. *)
Record store : Type := mkStore {
  docs : list Booking;
  next_id : nat
}.

(** ** Requests, responses, environment *)

(** The six properties the create handler destructures from [req.body]. *)
Record create_body : Type := mkBody {
  req_name : jsval;
  req_email : jsval;
  req_phone : jsval;
  req_service : jsval;
  req_date : jsval;
  req_message : jsval
}.

(** JSON payloads written by [res.json]. *)
Inductive payload : Type :=
| PMessage (m : string)
| PBookings (l : list Booking)
| PBooking (b : option Booking)
| PStats (total pending completed : nat).

(** What a handler does with the request: it writes a response
    ([res.status(code).json(p)], code 200 when [status] is not called), or
    its promise rejects and the handler itself writes nothing.
    [Unmodelled] marks the one place where this development does not
    determine the response: a search whose term uses regular-expression
    syntax beyond the fragment embedded below. *)
Inductive outcome : Type :=
| Responded (code : nat) (p : payload)
| Rejected
| Unmodelled.

(** Run-time facts outside the program, fixed for one request:
    the clock, whether the k-th store call and the k-th mail send of the
    request succeed, which tokens [jwt.verify] accepts, how JavaScript
    renders a number as a string ([String(n)]), and the case folding of the
    store's regular-expression engine on code points (two characters match
    under option [i] when they fold alike). *)
Record env : Type := mkEnv {
  now : Z;
  store_up : nat -> bool;
  mail_up : nat -> bool;
  jwt_verify : string -> bool;
  number_text : Z -> string;
  fold_case : N -> N
}.

(** Mongoose's caster for a path of type [String], as Mongoose 5 to 8 have
    it: strings are kept, numbers and booleans are rendered as JavaScript
    renders them, an object with a non-empty string [_id] casts to that
    identifier, anything else is a [CastError] ([None]). *)
Definition castString (e : env) (v : jsval) : option string :=
  match v with
  | JStr s => Some s
  | JNum n => Some (number_text e n)
  | JBool b => Some (if b then "true" else "false")
  | JObj props =>
      match js_get "_id" props with
      | JStr s => if s =? "" then None else Some s
      | _ => None
      end
  | JUndefined | JNull | JArr _ => None
  end.

(** A path declared [{ type: String, required: true }]: the cast value must
    be a non-empty string. *)
Definition castRequired (e : env) (v : jsval) : option string :=
  match castString e v with
  | Some s => if s =? "" then None else Some s
  | None => None
  end.

(** A path declared plainly [String]: absent values stay absent. *)
Definition castOptional (e : env) (v : jsval) : option (option string) :=
  match v with
  | JUndefined | JNull => Some None
  | _ => option_map Some (castString e v)
  end.

(** ** Document-store operations used by the handlers *)

(** [new Booking({name, email, phone, service, date, message})] followed by
    the validation that [save()] runs: [None] when a path fails to cast or a
    required path is empty. *)
Definition newBooking (e : env) (st : store) (body : create_body) : option Booking :=
  match castRequired e (req_name body), castRequired e (req_email body),
        castRequired e (req_phone body), castRequired e (req_service body),
        castRequired e (req_date body), castOptional e (req_message body) with
  | Some n, Some em, Some ph, Some sv, Some d, Some msg =>
      Some (mkBooking (next_id st) n em ph sv d msg "Pending" false (now e) (now e))
  | _, _, _, _, _, _ => None
  end.

(** The insert performed by a successful [save()]. *)
Definition insertBooking (b : Booking) (st : store) : store :=
  mkStore (docs st ++ [b]) (S (next_id st)).

Definition server_error : outcome := Responded 500 (PMessage "Server error").

(** ** POST /api/bookings (lines 143-198) *)

(** Does converting the value to a string throw?  A template literal
    [`${v}`] converts [v]; for an object that calls its [toString], and a
    parsed JSON object that has a property of that name has no callable
    one, which is a [TypeError].  An array joins the conversions of its
    elements. *)
Fixpoint to_string_throws (v : jsval) : bool :=
  match v with
  | JObj props => existsb (fun kv => fst kv =? "toString") props
  | JArr items => existsb to_string_throws items
  | _ => false
  end.

(** Building the confirmation mail (lines 164-176) interpolates [name],
    [service] and [date]. *)
Definition confirmation_throws (body : create_body) : bool :=
  to_string_throws (req_name body) || to_string_throws (req_service body)
  || to_string_throws (req_date body).

(** Building the admin alert (lines 178-191) interpolates the five required
    fields and [message || "N/A"]. *)
Definition alert_throws (body : create_body) : bool :=
  to_string_throws (req_name body) || to_string_throws (req_email body)
  || to_string_throws (req_phone body) || to_string_throws (req_service body)
  || to_string_throws (req_date body)
  || (truthy (req_message body) && to_string_throws (req_message body)).

(** The handler from line 147 on, [body] holding the six properties that
    line 145 destructured from an object.  Everything runs inside the [try]:
    a failed [save()], a throw while a mail is built and a rejected
    [sendMail] all end in the [catch]. *)
Definition post_api_bookings (e : env) (body : create_body) (st : store)
  : store * outcome :=
  if negb (truthy (req_name body)) || negb (truthy (req_email body))
     || negb (truthy (req_phone body)) || negb (truthy (req_service body))
     || negb (truthy (req_date body))
  then (st, Responded 400 (PMessage "All required fields are required"))
  else
    match newBooking e st body with
    | None => (st, server_error)
    | Some b =>
        if negb (store_up e 0) then (st, server_error)
        else
          let st' := insertBooking b st in
          if confirmation_throws body then (st', server_error)
          else if negb (mail_up e 0) then (st', server_error)
          else if alert_throws body then (st', server_error)
          else if negb (mail_up e 1) then (st', server_error)
          else (st', Responded 201 (PMessage "Booking successful"))
    end.

(** The whole handler: [req_body] is [req.body], [None] when it is
    [undefined] (no body was parsed); destructuring it on line 145 then
    throws inside the [try]. *)
Definition post_api_bookings_req (e : env) (req_body : option create_body)
    (st : store) : store * outcome :=
  match req_body with
  | None => (st, server_error)
  | Some body => post_api_bookings e body st
  end.

(** ** Queries and updates of the Booking model *)

Definition active (b : Booking) : bool := negb (archived b).

(** [.sort({ createdAt: -1 })]: newest first; documents with equal
    [createdAt] keep their natural order. *)
Fixpoint insert_desc (b : Booking) (l : list Booking) : list Booking :=
  match l with
  | [] => [b]
  | x :: r =>
      if (createdAt x <=? createdAt b)%Z then b :: l else x :: insert_desc b r
  end.

Fixpoint sort_desc (l : list Booking) : list Booking :=
  match l with
  | [] => []
  | b :: r => insert_desc b (sort_desc r)
  end.

(** [Booking.find({ archived: false }).sort({ createdAt: -1 })]. *)
Definition findActiveSorted (st : store) : list Booking :=
  sort_desc (filter active (docs st)).

Definition has_id (id : nat) (b : Booking) : bool := Nat.eqb (_id b) id.

(** [Booking.findById(id)]. *)
Definition findById (id : nat) (st : store) : option Booking :=
  find (has_id id) (docs st).

(** [Booking.countDocuments(filter)]. *)
Definition countDocuments (f : Booking -> bool) (st : store) : nat :=
  List.length (filter f (docs st)).

Definition has_status (s : string) (b : Booking) : bool := status b =? s.

(** The document written by [findByIdAndUpdate(id, { status: s })]: the
    [$set] of the one path, plus [updatedAt] from [timestamps: true]. *)
Definition set_status (s : string) (t : Z) (b : Booking) : Booking :=
  mkBooking (_id b) (name b) (email b) (phone b) (service b) (date b)
            (message b) s (archived b) (createdAt b) t.

(** The document written by [findByIdAndUpdate(id, { archived: a })]. *)
Definition set_archived (a : bool) (t : Z) (b : Booking) : Booking :=
  mkBooking (_id b) (name b) (email b) (phone b) (service b) (date b)
            (message b) (status b) a (createdAt b) t.

(** [findByIdAndUpdate]: the first document with that [_id] is rewritten;
    nothing happens when there is none. *)
Fixpoint update_first (id : nat) (f : Booking -> Booking) (l : list Booking)
  : list Booking :=
  match l with
  | [] => []
  | b :: r => if Nat.eqb (_id b) id then f b :: r else b :: update_first id f r
  end.

Definition findByIdAndUpdate (id : nat) (f : Booking -> Booking) (st : store)
  : store :=
  mkStore (update_first id f (docs st)) (next_id st).

(** [findByIdAndDelete]: the first document with that [_id] is removed. *)
Fixpoint delete_first (id : nat) (l : list Booking) : list Booking :=
  match l with
  | [] => []
  | b :: r => if Nat.eqb (_id b) id then r else b :: delete_first id r
  end.

Definition findByIdAndDelete (id : nat) (st : store) : store :=
  mkStore (delete_first id (docs st)) (next_id st).

(** ** [$regex] with [$options: "i"] *)

(** The store matches patterns against text as a sequence of code points.
    Strings are UTF-8 byte strings, as the store holds them; [utf8_decode]
    reads their code points, with U+FFFD for a malformed sequence. *)
Definition replacement : N := 65533.

(** A byte that opens a sequence: how many bytes follow, and its payload. *)
Definition utf8_lead (b : N) : nat * N :=
  if (b <? 128)%N then (0, b)
  else if ((192 <=? b) && (b <? 224))%N then (1, (b mod 32)%N)
  else if ((224 <=? b) && (b <? 240))%N then (2, (b mod 16)%N)
  else if ((240 <=? b) && (b <? 248))%N then (3, (b mod 8)%N)
  else (0, replacement).

Definition utf8_continuation (b : N) : bool := ((128 <=? b) && (b <? 192))%N.

Fixpoint utf8_decode_from (need : nat) (acc : N) (s : string) : list N :=
  match s with
  | EmptyString => match need with O => [] | S _ => [replacement] end
  | String c r =>
      let b := N_of_ascii c in
      match need with
      | S k =>
          if utf8_continuation b then
            let acc' := (acc * 64 + b mod 64)%N in
            match k with
            | O => acc' :: utf8_decode_from 0 0 r
            | S _ => utf8_decode_from k acc' r
            end
          else
            replacement ::
            match utf8_lead b with
            | (O, a) => a :: utf8_decode_from 0 0 r
            | (n, a) => utf8_decode_from n a r
            end
      | O =>
          match utf8_lead b with
          | (O, a) => a :: utf8_decode_from 0 0 r
          | (n, a) => utf8_decode_from n a r
          end
      end
  end.

Definition utf8_decode (s : string) : list N := utf8_decode_from 0 0 s.

(** The fragment of the pattern language embedded here: ordinary characters
    and the dot. *)
Inductive rx_atom : Type :=
| RxChar (c : N)
| RxAny.

(** Characters with a special meaning in a pattern. *)
Definition rx_meta (c : N) : bool :=
  existsb (N.eqb c) (utf8_decode "\^$.|?*+()[]{}").

Definition dot : N := 46.
Definition newline : N := 10.

(** Reading the characters of a term as a pattern; [None] outside the
    fragment. *)
Fixpoint rx_compile_chars (term : list N) : option (list rx_atom) :=
  match term with
  | [] => Some []
  | c :: rest =>
      match (if N.eqb c dot then Some RxAny
             else if rx_meta c then None else Some (RxChar c)),
            rx_compile_chars rest with
      | Some a, Some p => Some (a :: p)
      | _, _ => None
      end
  end.

Definition rx_compile (term : string) : option (list rx_atom) :=
  rx_compile_chars (utf8_decode term).

(** Does the pattern match a prefix of [s]?  Under option [i] a character
    of the pattern matches a character that folds alike; the dot matches
    any character but a newline. *)
Fixpoint rx_match_here (fold : N -> N) (p : list rx_atom) (s : list N) : bool :=
  match p, s with
  | [], _ => true
  | _ :: _, [] => false
  | RxChar c :: p', d :: s' =>
      N.eqb (fold c) (fold d) && rx_match_here fold p' s'
  | RxAny :: p', d :: s' =>
      negb (N.eqb d newline) && rx_match_here fold p' s'
  end.

(** An unanchored pattern matches when it matches at some offset. *)
Fixpoint rx_search (fold : N -> N) (p : list rx_atom) (s : list N) : bool :=
  rx_match_here fold p s ||
  match s with
  | [] => false
  | _ :: s' => rx_search fold p s'
  end.

(** [{ field: { $regex: term, $options: "i" } }] on a stored string. *)
Definition rx_test (fold : N -> N) (p : list rx_atom) (s : string) : bool :=
  rx_search fold p (utf8_decode s).

(** The filter of the search query: [archived: false] and the [$or] of the
    three [$regex] conditions. *)
Definition search_filter (fold : N -> N) (p : list rx_atom) (b : Booking) : bool :=
  active b &&
  (rx_test fold p (name b) || rx_test fold p (phone b)
   || rx_test fold p (service b)).

(** ** Auth middleware (lines 124-138) *)

(** JavaScript's [header.split(" ")]. *)
Fixpoint split_space (s : string) : list string :=
  match s with
  | EmptyString => [EmptyString]
  | String c rest =>
      if Ascii.eqb c " "%char then EmptyString :: split_space rest
      else
        match split_space rest with
        | hd :: tl => String c hd :: tl
        | [] => [String c EmptyString]
        end
  end.

(** [header.split(" ")[1]], with [None] for [undefined]. *)
Definition token_of (header : string) : option string :=
  nth_error (split_space header) 1.

Definition no_token : outcome := Responded 401 (PMessage "No token provided").
Definition bad_format : outcome := Responded 401 (PMessage "Invalid token format").
Definition bad_token : outcome := Responded 403 (PMessage "Invalid or expired token").

(** [verifyToken(req, res, next)]: [authorization] is
    [req.headers.authorization] ([None] for [undefined]) and [next] is the
    route handler behind the gate.  A throw of [jwt.verify] is the catch
    branch. *)
Definition verifyToken (e : env) (authorization : option string)
    (next : store -> store * outcome) (st : store) : store * outcome :=
  match authorization with
  | None => (st, no_token)
  | Some header =>
      if header =? "" then (st, no_token)
      else
        match token_of header with
        | None => (st, bad_format)
        | Some token =>
            if token =? "" then (st, bad_format)
            else if jwt_verify e token then next st
            else (st, bad_token)
        end
  end.

(** ** Admin route handlers (lines 203-289) *)

(** GET /api/bookings: no [try]; a rejected query rejects the handler. *)
Definition get_api_bookings (e : env) (st : store) : store * outcome :=
  if store_up e 0 then (st, Responded 200 (PBookings (findActiveSorted st)))
  else (st, Rejected).

(** GET /api/bookings/:id. *)
Definition get_api_bookings_id (e : env) (id : nat) (st : store)
  : store * outcome :=
  if store_up e 0 then (st, Responded 200 (PBooking (findById id st)))
  else (st, Rejected).

(** GET /api/dashboard/stats: three counts inside one [try]. *)
Definition get_api_dashboard_stats (e : env) (st : store) : store * outcome :=
  if store_up e 0 && store_up e 1 && store_up e 2 then
    (st, Responded 200
           (PStats (countDocuments active st)
                   (countDocuments (fun b => has_status "Pending" b && active b) st)
                   (countDocuments (fun b => has_status "Completed" b && active b) st)))
  else (st, Responded 500 (PMessage "Error fetching stats")).

(** GET /api/bookings/search/:term. *)
Definition get_api_bookings_search (e : env) (term : string) (st : store)
  : store * outcome :=
  if store_up e 0 then
    match rx_compile term with
    | Some p =>
        (st, Responded 200
               (PBookings (filter (search_filter (fold_case e) p) (docs st))))
    | None => (st, Unmodelled)
    end
  else (st, Rejected).

(** PUT /api/bookings/:id/complete. *)
Definition put_api_bookings_complete (e : env) (id : nat) (st : store)
  : store * outcome :=
  if store_up e 0 then
    (findByIdAndUpdate id (set_status "Completed" (now e)) st,
     Responded 200 (PMessage "Marked as completed"))
  else (st, Rejected).

(** PUT /api/bookings/:id/archive. *)
Definition put_api_bookings_archive (e : env) (id : nat) (st : store)
  : store * outcome :=
  if store_up e 0 then
    (findByIdAndUpdate id (set_archived true (now e)) st,
     Responded 200 (PMessage "Archived successfully"))
  else (st, Rejected).

(** DELETE /api/bookings/:id. *)
Definition delete_api_bookings (e : env) (id : nat) (st : store)
  : store * outcome :=
  if store_up e 0 then
    (findByIdAndDelete id st, Responded 200 (PMessage "Deleted successfully"))
  else (st, Rejected).

(** ** The routing table *)

(** The booking operations the server exposes.  A [:id] segment that is not
    a well-formed identifier makes the store call reject, which [store_up]
    covers. *)
Inductive operation : Type :=
| Create (req_body : option create_body)
| ListActive
| GetById (id : nat)
| Stats
| Search (term : string)
| MarkCompleted (id : nat)
| Archive (id : nat)
| Delete (id : nat).

(** The handler registered for an operation, without its middleware. *)
Definition handler (e : env) (op : operation) : store -> store * outcome :=
  match op with
  | Create req_body => post_api_bookings_req e req_body
  | ListActive => get_api_bookings e
  | GetById id => get_api_bookings_id e id
  | Stats => get_api_dashboard_stats e
  | Search term => get_api_bookings_search e term
  | MarkCompleted id => put_api_bookings_complete e id
  | Archive id => put_api_bookings_archive e id
  | Delete id => delete_api_bookings e id
  end.

(** Routes registered with [verifyToken]: all but the public create. *)
Definition protected (op : operation) : bool :=
  match op with
  | Create _ => false
  | _ => true
  end.

(** One request served: [authorization] is the request's header. *)
Definition serve (e : env) (authorization : option string) (op : operation)
    (st : store) : store * outcome :=
  if protected op then verifyToken e authorization (handler e op) st
  else handler e op st.

(** ** Vocabulary of the specification *)

(** A field that is present and a non-empty string. *)
Definition is_text (v : jsval) : bool :=
  match v with
  | JStr s => negb (s =? "")
  | _ => false
  end.

(** The five required fields are all present, non-empty strings. *)
Definition required_text (body : create_body) : bool :=
  is_text (req_name body) && is_text (req_email body)
  && is_text (req_phone body) && is_text (req_service body)
  && is_text (req_date body).



(** Both mails were built and sent. *)
Definition delivered (e : env) (body : create_body) : bool :=
  negb (confirmation_throws body) && mail_up e 0
  && negb (alert_throws body) && mail_up e 1.

(** The handler's own test: every required field is truthy. *)
Definition required_truthy (body : create_body) : bool :=
  truthy (req_name body) && truthy (req_email body)
  && truthy (req_phone body) && truthy (req_service body)
  && truthy (req_date body).

(** Newest first: a document is at least as recent as every later one. *)
Definition newest_first (x y : Booking) : Prop := (createdAt y <= createdAt x)%Z.

(** The same request environment with every store call succeeding. *)
Definition store_ok (e : env) : Prop := forall k, store_up e k = true.

(** What one document contributes to a count. *)
Definition indicator (c : bool) : nat := if c then 1 else 0.

(** The characters of a string, case-folded. *)
Definition folded (fold : N -> N) (s : string) : list N :=
  map fold (utf8_decode s).

(** The specification's reading of the search: [s] contains [term] as a
    substring, up to the case of letters. *)
Definition ci_contains (fold : N -> N) (term s : string) : Prop :=
  exists pre post : list N,
    folded fold s = (pre ++ folded fold term ++ post)%list.

(** A term without any character that is special in a pattern. *)
Definition plain_term (term : string) : bool :=
  forallb (fun c => negb (rx_meta c)) (utf8_decode term).

(** The pattern that matches the characters of [term] one by one. *)
Definition literal_pattern (term : string) : list rx_atom :=
  map RxChar (utf8_decode term).

(** The folding identifies each letter A-Z with its lower-case letter. *)
Definition folds_letters (fold : N -> N) : Prop :=
  forall c : N, (65 <= c <= 90)%N -> fold c = fold (c + 32)%N.

(** Operations whose response this development determines: every one but a
    search with a term outside the embedded pattern fragment. *)
Definition modelled (op : operation) : Prop :=
  match op with
  | Search term => rx_compile term <> None
  | _ => True
  end.

(** Identifiers are unique and below the next one to be handed out. *)
Definition wf (st : store) : Prop :=
  NoDup (map _id (docs st)) /\ Forall (fun b => _id b < next_id st) (docs st).

(** ** Sample data used by the examples *)

Definition empty_store : store := mkStore [] 0.

Definition ana : create_body :=
  mkBody (JStr "Ana") (JStr "a@x.com") (JStr "555") (JStr "Oil Change")
         (JStr "2024-05-01") JUndefined.

Definition ana_booking : Booking :=
  mkBooking 0 "Ana" "a@x.com" "555" "Oil Change" "2024-05-01" None
            "Pending" false 1000 1000.

Definition always (b : bool) : nat -> bool := fun _ => b.

(** Decimal digits: how JavaScript renders a safe integer, the only
    numbers the examples use. *)
Definition decimal (n : Z) : string := NilZero.string_of_int (Z.to_int n).

(** A case folding for the examples: Unicode's simple case folding on the
    Basic Latin and Latin-1 letters (A-Z, and U+00C0 to U+00DE but the
    multiplication sign), the Kelvin sign and the long s; the examples use
    no other cased character. *)
Definition fold_sample (c : N) : N :=
  if ((65 <=? c) && (c <=? 90))%N then (c + 32)%N
  else if ((192 <=? c) && (c <=? 222) && negb (c =? 215))%N then (c + 32)%N
  else if (c =? 8490)%N then 107%N
  else if (c =? 383)%N then 115%N
  else c.

(** Everything works; the only token accepted is ["good"]. *)
Definition env_ok : env := mkEnv 1000 (always true) (always true) (String.eqb "good")
        decimal fold_sample.

(** The store rejects every call. *)
Definition env_store_down : env :=
  mkEnv 1000 (always false) (always true) (String.eqb "good")
        decimal fold_sample.

(** The first mail send (the customer's confirmation) rejects. *)
Definition env_mail_down : env :=
  mkEnv 1000 (always true) (fun k => negb (Nat.eqb k 0)) (String.eqb "good")
        decimal fold_sample.

(** The second mail send (the admin alert) rejects. *)
Definition env_alert_down : env :=
  mkEnv 1000 (always true) (fun k => negb (Nat.eqb k 1)) (String.eqb "good")
        decimal fold_sample.

Definition old_booking : Booking :=
  mkBooking 1 "Bo" "b@x.com" "556" "Brakes" "2024-04-01" None
            "Completed" false 500 500.

Definition archived_booking : Booking :=
  mkBooking 2 "Cy" "c@x.com" "557" "Tires" "2024-06-01" (Some "call first")
            "Pending" true 2000 2000.

(** Three documents in insertion order: an old one, a recent one, an
    archived one. *)
Definition sample_store : store :=
  mkStore [old_booking; ana_booking; archived_booking] 3.

Definition pending_store : store := mkStore [old_booking; ana_booking] 2.

(** "Tomás" as the store holds it: UTF-8, the accented letter on two bytes. *)
Definition tomas : string :=
  "Tom" ++ String (ascii_of_nat 195) (String (ascii_of_nat 161) "s").

(** The same name in capitals, the accented capital on two bytes. *)
Definition tomas_capitals : string :=
  "TOM" ++ String (ascii_of_nat 195) (String (ascii_of_nat 129) "S").

Definition tomas_booking : Booking :=
  mkBooking 3 tomas "t@x.com" "558" "Oil Change" "2024-07-01" None
            "Pending" false 3000 3000.

Definition search_store : store :=
  mkStore [old_booking; tomas_booking; archived_booking] 4.

(** A later request: same collaborators, the clock at 2000. *)
Definition env_later : env :=
  mkEnv 2000 (always true) (always true) (String.eqb "good")
        decimal fold_sample.

(** ** Proof automation *)

(** Case analysis on the identifier tests left in the goal. *)
Ltac id_cases :=
  repeat match goal with
         | |- context [Nat.eqb ?a ?b] => destruct (Nat.eqb_spec a b)
         end;
  try reflexivity; try congruence; try lia.

(** ** POST /admin/login (lines 102-119) *)







(** ** The notification sends of the create handler (lines 164-191) *)

(** The two mails of the handler, by recipient: [to: email] and
    [to: process.env.ADMIN_EMAIL]. *)
Inductive mail : Type :=
| Confirmation (to : jsval)
| AdminAlert.

(** The [sendMail] calls the create handler makes, in order: none before a
    successful [save()], none once building a mail threw, and the second
    only once the first resolved. *)
Definition post_api_bookings_sends (e : env) (body : create_body) (st : store)
  : list mail :=
  if negb (truthy (req_name body)) || negb (truthy (req_email body))
     || negb (truthy (req_phone body)) || negb (truthy (req_service body))
     || negb (truthy (req_date body))
  then []
  else
    match newBooking e st body with
    | None => []
    | Some _ =>
        if negb (store_up e 0) then []
        else if confirmation_throws body then []
        else if negb (mail_up e 0) then [Confirmation (req_email body)]
        else if alert_throws body then [Confirmation (req_email body)]
        else [Confirmation (req_email body); AdminAlert]
    end.

(** ** Further vocabulary *)

(** A word: a string without a space. *)
Definition no_space (s : string) : bool :=
  forallb (fun c => negb (Ascii.eqb c " "%char)) (list_ascii_of_string s).

(** Every status is one of the two the server writes. *)
Definition status_ok (st : store) : Prop :=
  Forall (fun b => status b = "Pending" \/ status b = "Completed") (docs st).

(** The stores the server can be in: the empty collection, and whatever
    serving a request makes of a store it can be in. *)
Inductive reachable : store -> Prop :=
| reach_empty : reachable empty_store
| reach_serve (e : env) (authorization : option string) (op : operation)
    (st : store) :
    reachable st -> reachable (fst (serve e authorization op st)).



(** * Properties *)

(** ** Creating a booking *)

Lemma is_text_inv (v : jsval) :
  is_text v = true -> exists s, v = JStr s /\ (s =? "") = false.
Proof.
  destruct v; simpl; try discriminate.
  intros H. exists s. split; [reflexivity|].
  now apply negb_true_iff.
Qed.

Lemma is_text_truthy (v : jsval) : is_text v = true -> truthy v = true.
Proof. destruct v; simpl; auto; discriminate. Qed.

Lemma is_text_converts (v : jsval) : is_text v = true -> to_string_throws v = false.
Proof. destruct v; simpl; auto; discriminate. Qed.

Lemma required_text_truthy (body : create_body) :
  required_text body = true -> required_truthy body = true.
Proof.
  unfold required_text, required_truthy.
  rewrite !andb_true_iff.
  intros [[[[H1 H2] H3] H4] H5].
  repeat split; now apply is_text_truthy.
Qed.

(** Strings convert: with the five required fields strings, building the
    mails can only throw on the message. *)
Lemma required_text_converts (body : create_body) :
  required_text body = true ->
  confirmation_throws body = false
  /\ alert_throws body
     = (truthy (req_message body) && to_string_throws (req_message body)).
Proof.
  unfold required_text, confirmation_throws, alert_throws.
  rewrite !andb_true_iff.
  intros [[[[H1 H2] H3] H4] H5].
  apply is_text_converts in H1, H2, H3, H4, H5.
  now rewrite H1, H2, H3, H4, H5.
Qed.

Lemma castRequired_text (e : env) (s : string) :
  (s =? "") = false -> castRequired e (JStr s) = Some s.
Proof. intros H. unfold castRequired. simpl. now rewrite H. Qed.

(** The guard of the handler, read as a test on [required_truthy]. *)
Lemma post_guard (body : create_body) :
  negb (truthy (req_name body)) || negb (truthy (req_email body))
  || negb (truthy (req_phone body)) || negb (truthy (req_service body))
  || negb (truthy (req_date body)) = negb (required_truthy body).
Proof.
  unfold required_truthy.
  destruct (truthy (req_name body)), (truthy (req_email body)),
    (truthy (req_phone body)), (truthy (req_service body)),
    (truthy (req_date body)); reflexivity.
Qed.

(** What the handler does once the guard and the schema validation pass and
    the write succeeds: the document is in the store whatever happens to
    the mails, and the answer is 201 only when both were built and sent. *)
Lemma post_after_save (e : env) (body : create_body) (st : store) (b : Booking) :
  required_truthy body = true ->
  newBooking e st body = Some b ->
  store_up e 0 = true ->
  post_api_bookings e body st =
    (insertBooking b st,
     if delivered e body
     then Responded 201 (PMessage "Booking successful")
     else server_error).
Proof.
  intros Hg Hn Hs. unfold post_api_bookings, delivered.
  rewrite post_guard, Hg, Hn, Hs. simpl.
  destruct (confirmation_throws body), (mail_up e 0), (alert_throws body),
    (mail_up e 1); reflexivity.
Qed.

Lemma delivered_needs_both_sends (e : env) (body : create_body) :
  mail_up e 0 = false \/ mail_up e 1 = false -> delivered e body = false.
Proof.
  unfold delivered. intros [-> | ->];
    rewrite ?andb_false_r, ?andb_false_l; reflexivity.
Qed.

(** C1, as amended: when name, email, phone, service and date are present,
    non-empty strings, the message (if any) casts to a string and converts
    to text, and the store write succeeds, the create handler persists
    exactly one new Booking, carrying the submitted fields, status "Pending"
    and archived false; it answers 201 {message: "Booking successful"} when
    both notification sends succeed as well. *)
Theorem C1_create_persists_pending
    (e : env) (body : create_body) (st : store) (m : option string) :
  required_text body = true ->
  castOptional e (req_message body) = Some m ->
  to_string_throws (req_message body) = false ->
  store_up e 0 = true ->
  exists b : Booking,
    docs (fst (post_api_bookings e body st)) = (docs st ++ [b])%list
    /\ req_name body = JStr (name b) /\ req_email body = JStr (email b)
    /\ req_phone body = JStr (phone b) /\ req_service body = JStr (service b)
    /\ req_date body = JStr (date b) /\ message b = m
    /\ status b = "Pending" /\ archived b = false
    /\ (mail_up e 0 = true -> mail_up e 1 = true ->
        snd (post_api_bookings e body st)
        = Responded 201 (PMessage "Booking successful")).
Proof.
  intros Ht Hm Hc Hs.
  pose proof (required_text_truthy body Ht) as Hg.
  destruct (required_text_converts body Ht) as [Hconf Halert].
  rewrite Hc, andb_false_r in Halert.
  unfold required_text in Ht. rewrite !andb_true_iff in Ht.
  destruct Ht as [[[[H1 H2] H3] H4] H5].
  apply is_text_inv in H1, H2, H3, H4, H5.
  destruct H1 as (n & En & Hn), H2 as (em & Eem & Hem),
    H3 as (ph & Eph & Hph), H4 as (sv & Esv & Hsv), H5 as (d & Ed & Hd).
  set (b := mkBooking (next_id st) n em ph sv d m "Pending" false (now e) (now e)).
  assert (Hb : newBooking e st body = Some b).
  { unfold newBooking. rewrite En, Eem, Eph, Esv, Ed, Hm.
    now rewrite !castRequired_text by assumption. }
  exists b. rewrite (post_after_save e body st b Hg Hb Hs). simpl.
  repeat split; try assumption.
  intros M0 M1. unfold delivered. now rewrite Hconf, Halert, M0, M1.
Qed.

Lemma C1_create_persists_pending_witness :
  exists b : Booking,
    docs (fst (post_api_bookings env_ok ana empty_store))
    = (docs empty_store ++ [b])%list
    /\ req_name ana = JStr (name b) /\ req_email ana = JStr (email b)
    /\ req_phone ana = JStr (phone b) /\ req_service ana = JStr (service b)
    /\ req_date ana = JStr (date b) /\ message b = None
    /\ status b = "Pending" /\ archived b = false
    /\ (mail_up env_ok 0 = true -> mail_up env_ok 1 = true ->
        snd (post_api_bookings env_ok ana empty_store)
        = Responded 201 (PMessage "Booking successful")).
Proof.
  apply (C1_create_persists_pending env_ok ana empty_store None); reflexivity.
Defined.

(** C1 as stated fails: with the five required fields present and
    non-empty, the answer is 500 and not 201 when a notification send
    rejects; nothing is persisted when the store write rejects, nor when
    the message is an object that does not cast to a string; and with a
    message that casts but cannot be converted to text the Booking is
    persisted and the answer is 500. *)
Lemma C1_create_not_always_201 :
  required_text ana = true
  /\ snd (post_api_bookings env_mail_down ana empty_store)
     = Responded 500 (PMessage "Server error")
  /\ post_api_bookings env_store_down ana empty_store
     = (empty_store, Responded 500 (PMessage "Server error"))
  /\ (let body := mkBody (JStr "Ana") (JStr "a@x.com") (JStr "555")
                         (JStr "Oil Change") (JStr "2024-05-01") (JObj []) in
      required_text body = true
      /\ post_api_bookings env_ok body empty_store
         = (empty_store, Responded 500 (PMessage "Server error")))
  /\ (let body := mkBody (JStr "Ana") (JStr "a@x.com") (JStr "555")
                         (JStr "Oil Change") (JStr "2024-05-01")
                         (JObj [("_id", JStr "x"); ("toString", JNum 5)]) in
      required_text body = true
      /\ castOptional env_ok (req_message body) = Some (Some "x")
      /\ List.length (docs (fst (post_api_bookings env_ok body empty_store))) = 1
      /\ snd (post_api_bookings env_ok body empty_store)
         = Responded 500 (PMessage "Server error")).
Proof. repeat split. Qed.





(** C4, as amended: once the request passed validation and the store write
    succeeded, a failing notification send does not undo the write (the new
    Booking stays in the store), but the create answers 500
    {message: "Server error"} instead of reporting success. *)
Theorem C4_mail_failure_keeps_record_answers_500
    (e : env) (body : create_body) (st : store) (b : Booking) :
  required_truthy body = true ->
  newBooking e st body = Some b ->
  store_up e 0 = true ->
  mail_up e 0 = false \/ mail_up e 1 = false ->
  post_api_bookings e body st
  = (insertBooking b st, Responded 500 (PMessage "Server error"))
  /\ In b (docs (fst (post_api_bookings e body st))).
Proof.
  intros Hg Hn Hs Hm.
  rewrite (post_after_save e body st b Hg Hn Hs).
  rewrite (delivered_needs_both_sends e body Hm).
  split; [reflexivity|]. simpl. apply in_or_app. right. now left.
Qed.

Lemma C4_mail_failure_keeps_record_answers_500_witness :
  post_api_bookings env_alert_down ana empty_store
  = (insertBooking ana_booking empty_store,
     Responded 500 (PMessage "Server error"))
  /\ In ana_booking (docs (fst (post_api_bookings env_alert_down ana empty_store))).
Proof.
  apply (C4_mail_failure_keeps_record_answers_500 env_alert_down ana empty_store ana_booking).
  - reflexivity.
  - reflexivity.
  - reflexivity.
  - right. reflexivity.
Defined.

(** C4 as stated fails: the write succeeded and the record is in the store,
    yet the create does not report success when the confirmation mail
    rejects. *)
Lemma C4_mail_failure_is_reported :
  required_truthy ana = true
  /\ store_up env_mail_down 0 = true /\ mail_up env_mail_down 0 = false
  /\ docs (fst (post_api_bookings env_mail_down ana empty_store)) = [ana_booking]
  /\ snd (post_api_bookings env_mail_down ana empty_store)
     = Responded 500 (PMessage "Server error")
  /\ snd (post_api_bookings env_mail_down ana empty_store)
     <> Responded 201 (PMessage "Booking successful").
Proof. repeat split. discriminate. Qed.

(** ** Listing the active bookings *)

Lemma insert_desc_perm (b : Booking) (l : list Booking) :
  Permutation (insert_desc b l) (b :: l).
Proof.
  induction l as [|x r IH]; simpl.
  - apply Permutation_refl.
  - destruct (createdAt x <=? createdAt b)%Z.
    + apply Permutation_refl.
    + eapply perm_trans; [apply perm_skip, IH | apply perm_swap].
Qed.

Lemma sort_desc_perm (l : list Booking) : Permutation (sort_desc l) l.
Proof.
  induction l as [|b r IH]; simpl.
  - apply perm_nil.
  - eapply perm_trans; [apply insert_desc_perm | apply perm_skip, IH].
Qed.

Lemma insert_desc_sorted (b : Booking) (l : list Booking) :
  StronglySorted newest_first l -> StronglySorted newest_first (insert_desc b l).
Proof.
  induction 1 as [|x r Hr IH Hx]; simpl.
  - constructor; constructor.
  - destruct (createdAt x <=? createdAt b)%Z eqn:E.
    + apply Z.leb_le in E.
      constructor; [constructor; assumption|].
      constructor; [exact E|].
      eapply Forall_impl; [|exact Hx].
      intros y Hy. unfold newest_first in *. lia.
    + apply Z.leb_gt in E.
      constructor; [exact IH|].
      eapply Permutation_Forall.
      * apply Permutation_sym, insert_desc_perm.
      * constructor; [unfold newest_first; lia | exact Hx].
Qed.

Lemma sort_desc_sorted (l : list Booking) : StronglySorted newest_first (sort_desc l).
Proof.
  induction l as [|b r IH]; simpl.
  - constructor.
  - now apply insert_desc_sorted.
Qed.

Lemma active_false (b : Booking) : active b = true <-> archived b = false.
Proof. unfold active. apply negb_true_iff. Qed.

Lemma findActiveSorted_In (st : store) (b : Booking) :
  In b (findActiveSorted st) <-> In b (docs st) /\ archived b = false.
Proof.
  unfold findActiveSorted. rewrite <- active_false, <- filter_In.
  split; apply Permutation_in;
    [apply sort_desc_perm | apply Permutation_sym, sort_desc_perm].
Qed.

(** C3: the list handler answers with exactly the documents whose archived
    flag is false (each as often as the store holds it), newest first, and
    no response of it carries a document with archived = true. *)
Theorem C3_list_active_newest_first (e : env) (st : store) :
  let l := findActiveSorted st in
  Permutation l (filter active (docs st))
  /\ (forall b, In b l <-> In b (docs st) /\ archived b = false)
  /\ StronglySorted newest_first l
  /\ (store_up e 0 = true ->
      get_api_bookings e st = (st, Responded 200 (PBookings l)))
  /\ (forall code l', snd (get_api_bookings e st) = Responded code (PBookings l') ->
      l' = l /\ Forall (fun b => archived b = false) l').
Proof.
  cbv zeta. split; [apply sort_desc_perm|].
  split; [apply findActiveSorted_In|].
  split; [apply sort_desc_sorted|].
  unfold get_api_bookings. split.
  - intros ->. reflexivity.
  - intros code l'. destruct (store_up e 0); simpl; [|discriminate].
    intros H. injection H as _ <-. split; [reflexivity|].
    apply Forall_forall. intros b Hb. now apply findActiveSorted_In in Hb.
Qed.

Lemma C3_list_active_newest_first_witness :
  get_api_bookings env_ok sample_store
  = (sample_store, Responded 200 (PBookings [ana_booking; old_booking])).
Proof.
  apply (C3_list_active_newest_first env_ok sample_store). reflexivity.
Defined.

(** ** Updates by identifier *)

(** The first document with a given identifier splits the collection. *)
Lemma find_split (id : nat) (l : list Booking) (b : Booking) :
  find (has_id id) l = Some b ->
  exists l1 l2,
    l = (l1 ++ b :: l2)%list
    /\ Forall (fun x => _id x <> id) l1
    /\ _id b = id.
Proof.
  induction l as [|x r IH]; simpl; [discriminate|].
  unfold has_id at 1. destruct (Nat.eqb_spec (_id x) id) as [E|E].
  - intros H. injection H as <-. exists [], r.
    repeat split; [constructor | exact E].
  - intros H. destruct (IH H) as (l1 & l2 & -> & Hl1 & Hid).
    exists (x :: l1), l2. repeat split; try assumption.
    now constructor.
Qed.

(** [findByIdAndUpdate] rewrites the first matching document in place. *)
Lemma update_first_at (id : nat) (f : Booking -> Booking)
    (l1 l2 : list Booking) (b : Booking) :
  Forall (fun x => _id x <> id) l1 -> _id b = id ->
  update_first id f (l1 ++ b :: l2) = (l1 ++ f b :: l2)%list.
Proof.
  intros Hl1 Hb. induction Hl1 as [|x r Hx Hr IH]; simpl.
  - apply Nat.eqb_eq in Hb. now rewrite Hb.
  - apply Nat.eqb_neq in Hx. now rewrite Hx, IH.
Qed.

Lemma update_first_split (id : nat) (f : Booking -> Booking) (l : list Booking) (b : Booking) :
  find (has_id id) l = Some b ->
  exists l1 l2,
    l = (l1 ++ b :: l2)%list
    /\ update_first id f l = (l1 ++ f b :: l2)%list
    /\ Forall (fun x => _id x <> id) l1
    /\ _id b = id.
Proof.
  intros H. destruct (find_split id l b H) as (l1 & l2 & -> & Hl1 & Hb).
  exists l1, l2. repeat split; try assumption.
  now apply update_first_at.
Qed.

Lemma update_first_missing (id : nat) (f : Booking -> Booking) (l : list Booking) :
  find (has_id id) l = None -> update_first id f l = l.
Proof.
  induction l as [|x r IH]; simpl; [reflexivity|].
  unfold has_id at 1. destruct (Nat.eqb (_id x) id); [discriminate|].
  intros H. now rewrite IH.
Qed.

Lemma count_app (f : Booking -> bool) (l1 l2 : list Booking) :
  List.length (filter f (l1 ++ l2))
  = List.length (filter f l1) + List.length (filter f l2).
Proof. now rewrite filter_app, length_app. Qed.

(** Rewriting one document moves a count by that document alone. *)
Lemma count_replace (f : Booking -> bool) (l1 l2 : list Booking) (b b' : Booking) :
  List.length (filter f (l1 ++ b' :: l2)) + indicator (f b)
  = List.length (filter f (l1 ++ b :: l2)) + indicator (f b').
Proof.
  rewrite !count_app. simpl.
  destruct (f b), (f b'); simpl; lia.
Qed.

Lemma count_after_update (f : Booking -> bool) (id : nat) (g : Booking -> Booking)
    (st : store) (b : Booking) :
  findById id st = Some b ->
  countDocuments f (findByIdAndUpdate id g st) + indicator (f b)
  = countDocuments f st + indicator (f (g b)).
Proof.
  intros H. unfold countDocuments, findByIdAndUpdate. simpl.
  destruct (update_first_split id g (docs st) b H) as (l1 & l2 & -> & -> & _).
  apply count_replace.
Qed.

(** ** Dashboard counts after completing a booking *)

(** C5, as amended: when the Booking matching [id] was "Pending" and not
    archived, then after the complete handler the stats handler reports a
    completed count larger by exactly one, a pending count smaller by
    exactly one, and the same total. *)
Theorem C5_complete_moves_one_count
    (e1 e2 e3 : env) (id : nat) (st : store) (b : Booking) :
  store_ok e1 -> store_up e2 0 = true -> store_ok e3 ->
  findById id st = Some b ->
  status b = "Pending" ->
  archived b = false ->
  exists total pending completed : nat,
    snd (get_api_dashboard_stats e1 st)
    = Responded 200 (PStats total (S pending) completed)
    /\ snd (get_api_dashboard_stats e3 (fst (put_api_bookings_complete e2 id st)))
       = Responded 200 (PStats total pending (S completed)).
Proof.
  intros H1 H2 H3 Hf Hs Ha.
  unfold get_api_dashboard_stats, put_api_bookings_complete.
  rewrite !H1, !H3, H2. simpl.
  set (g := set_status "Completed" (now e2)).
  set (pend := fun x => has_status "Pending" x && active x).
  set (comp := fun x => has_status "Completed" x && active x).
  pose proof (count_after_update active id g st b Hf) as Ht.
  pose proof (count_after_update pend id g st b Hf) as Hp.
  pose proof (count_after_update comp id g st b Hf) as Hc.
  assert (Eab : active b = true) by (unfold active; now rewrite Ha).
  assert (Eag : active (g b) = true) by (unfold active; simpl; now rewrite Ha).
  assert (Epb : pend b = true) by (unfold pend, has_status; now rewrite Hs, Eab).
  assert (Epg : pend (g b) = false) by reflexivity.
  assert (Ecb : comp b = false) by (unfold comp, has_status; now rewrite Hs).
  assert (Ecg : comp (g b) = true) by (unfold comp, has_status; simpl; exact Eag).
  rewrite Eab, Eag in Ht. rewrite Epb, Epg in Hp. rewrite Ecb, Ecg in Hc.
  simpl in Ht, Hp, Hc.
  exists (countDocuments active st),
    (countDocuments pend (findByIdAndUpdate id g st)),
    (countDocuments comp st).
  split; do 2 f_equal; lia.
Qed.

Lemma C5_complete_moves_one_count_witness :
  exists total pending completed : nat,
    snd (get_api_dashboard_stats env_ok pending_store)
    = Responded 200 (PStats total (S pending) completed)
    /\ snd (get_api_dashboard_stats env_ok
              (fst (put_api_bookings_complete env_ok 0 pending_store)))
       = Responded 200 (PStats total pending (S completed)).
Proof.
  apply (C5_complete_moves_one_count env_ok env_ok env_ok 0 pending_store ana_booking);
    try reflexivity; intros k; reflexivity.
Defined.

(** C5 as stated fails for an archived Booking: completing a "Pending"
    Booking that is archived changes neither count, since the stats count
    active Bookings only. *)
Lemma C5_archived_pending_not_counted :
  findById 2 sample_store = Some archived_booking
  /\ status archived_booking = "Pending"
  /\ snd (get_api_dashboard_stats env_ok sample_store)
     = Responded 200 (PStats 2 1 1)
  /\ snd (get_api_dashboard_stats env_ok
            (fst (put_api_bookings_complete env_ok 2 sample_store)))
     = Responded 200 (PStats 2 1 1).
Proof. repeat split. Qed.

(** ** Searching *)

Lemma rx_compile_chars_plain (t : list N) :
  forallb (fun c => negb (rx_meta c)) t = true ->
  rx_compile_chars t = Some (map RxChar t).
Proof.
  induction t as [|c r IH]; simpl; [reflexivity|].
  rewrite andb_true_iff, negb_true_iff. intros [Hc Hr].
  rewrite (IH Hr), Hc.
  destruct (N.eqb_spec c dot) as [E|E]; [|reflexivity].
  subst c. discriminate Hc.
Qed.

Lemma rx_compile_plain (term : string) :
  plain_term term = true -> rx_compile term = Some (literal_pattern term).
Proof. apply rx_compile_chars_plain. Qed.

Lemma match_here_literal (fold : N -> N) (t s : list N) :
  rx_match_here fold (map RxChar t) s = true
  <-> exists post : list N, map fold s = (map fold t ++ post)%list.
Proof.
  revert s. induction t as [|c r IH]; intros s; simpl.
  - split; [intros _; now exists (map fold s) | reflexivity].
  - destruct s as [|d s']; simpl.
    + split; [discriminate | intros [post H]; discriminate H].
    + rewrite andb_true_iff, N.eqb_eq, IH. split.
      * intros [E [post H]]. exists post. now rewrite E, H.
      * intros [post H]. injection H as E H. split; [now symmetry | now exists post].
Qed.

Lemma rx_search_literal_chars (fold : N -> N) (t s : list N) :
  rx_search fold (map RxChar t) s = true
  <-> exists pre post : list N, map fold s = (pre ++ map fold t ++ post)%list.
Proof.
  induction s as [|d s' IH]; simpl.
  - rewrite orb_false_r, match_here_literal. simpl. split.
    + intros [post H]. now exists [], post.
    + intros [pre [post H]]. destruct pre; [now exists post | discriminate H].
  - rewrite orb_true_iff, match_here_literal, IH. simpl. split.
    + intros [[post H] | [pre [post H]]].
      * now exists [], post.
      * exists (fold d :: pre), post. simpl. now rewrite H.
    + intros [pre [post H]]. destruct pre as [|c pre]; simpl in H.
      * left. now exists post.
      * right. injection H as _ H. now exists pre, post.
Qed.

Lemma rx_search_literal (fold : N -> N) (term s : string) :
  rx_test fold (literal_pattern term) s = true <-> ci_contains fold term s.
Proof. apply rx_search_literal_chars. Qed.

Lemma search_filter_literal (fold : N -> N) (term : string) (b : Booking) :
  search_filter fold (literal_pattern term) b = true
  <-> archived b = false
      /\ (ci_contains fold term (name b) \/ ci_contains fold term (phone b)
          \/ ci_contains fold term (service b)).
Proof.
  unfold search_filter.
  rewrite andb_true_iff, !orb_true_iff, !rx_search_literal, active_false.
  tauto.
Qed.

Lemma fold_sample_folds_letters : folds_letters fold_sample.
Proof.
  intros c [Hlo Hhi]. unfold fold_sample.
  destruct (N.leb_spec 65 c); [|lia].
  destruct (N.leb_spec c 90); [|lia]. simpl.
  destruct (N.leb_spec 65 (c + 32)); [|lia].
  destruct (N.leb_spec (c + 32) 90); [lia|]. simpl.
  destruct (N.leb_spec 192 (c + 32)); [lia|]. simpl.
  destruct (N.eqb_spec (c + 32) 8490); [lia|].
  destruct (N.eqb_spec (c + 32) 383); [lia | reflexivity].
Qed.

(** With that folding, accented capitals find their lower-case letters. *)
Example search_folds_accented_letters :
  snd (get_api_bookings_search env_ok tomas_capitals search_store)
  = Responded 200 (PBookings [tomas_booking])
  /\ snd (get_api_bookings_search env_ok "tom" search_store)
     = Responded 200 (PBookings [tomas_booking]).
Proof. split; reflexivity. Qed.

(** C6, as amended: for every term free of regular-expression
    metacharacters, the search handler answers with exactly the active
    Bookings (in store order) whose name, phone or service contains the term
    as a substring once the store's engine has case-folded both; so, the
    engine folding A-Z to a-z, searching "tom" finds an active Booking
    named "Tomás". *)
Theorem C6_search_plain_term (e : env) (term : string) (st : store) :
  plain_term term = true ->
  store_up e 0 = true ->
  exists l : list Booking,
    get_api_bookings_search e term st = (st, Responded 200 (PBookings l))
    /\ l = filter (search_filter (fold_case e) (literal_pattern term)) (docs st)
    /\ (forall b, In b l <->
          In b (docs st) /\ archived b = false
          /\ (ci_contains (fold_case e) term (name b)
              \/ ci_contains (fold_case e) term (phone b)
              \/ ci_contains (fold_case e) term (service b)))
    /\ (term = "tom" -> folds_letters (fold_case e) ->
        forall b, In b (docs st) -> archived b = false -> name b = tomas -> In b l).
Proof.
  intros Hp Hs.
  exists (filter (search_filter (fold_case e) (literal_pattern term)) (docs st)).
  unfold get_api_bookings_search. rewrite Hs, (rx_compile_plain term Hp).
  split; [reflexivity|]. split; [reflexivity|].
  assert (Hin : forall b,
             In b (filter (search_filter (fold_case e) (literal_pattern term)) (docs st)) <->
             In b (docs st) /\ archived b = false
             /\ (ci_contains (fold_case e) term (name b)
                 \/ ci_contains (fold_case e) term (phone b)
                 \/ ci_contains (fold_case e) term (service b))).
  { intros b. rewrite filter_In, search_filter_literal. tauto. }
  split; [exact Hin|].
  intros -> Hfold b Hb Ha Hn. apply Hin. repeat split; try assumption.
  left. rewrite Hn.
  exists [], [fold_case e 225; fold_case e 115]%N.
  change (folded (fold_case e) tomas)
    with [fold_case e 84; fold_case e 111; fold_case e 109;
          fold_case e 225; fold_case e 115]%N.
  change (folded (fold_case e) "tom")
    with [fold_case e 116; fold_case e 111; fold_case e 109]%N.
  simpl. now rewrite (Hfold 84%N) by lia.
Qed.

Lemma C6_search_plain_term_witness :
  exists l : list Booking,
    get_api_bookings_search env_ok "tom" search_store
    = (search_store, Responded 200 (PBookings l))
    /\ l = filter (search_filter (fold_case env_ok) (literal_pattern "tom"))
                  (docs search_store)
    /\ (forall b, In b l <->
          In b (docs search_store) /\ archived b = false
          /\ (ci_contains (fold_case env_ok) "tom" (name b)
              \/ ci_contains (fold_case env_ok) "tom" (phone b)
              \/ ci_contains (fold_case env_ok) "tom" (service b)))
    /\ ("tom" = "tom" -> folds_letters (fold_case env_ok) ->
        forall b, In b (docs search_store) -> archived b = false ->
                  name b = tomas -> In b l).
Proof.
  apply (C6_search_plain_term env_ok "tom" search_store); reflexivity.
Defined.

(** C6 as stated fails for a term with a metacharacter: the term is read as
    a pattern, so "." finds Bookings none of whose name, phone or service
    contains a dot. *)
Lemma C6_dot_is_a_pattern :
  get_api_bookings_search env_ok "." pending_store
  = (pending_store, Responded 200 (PBookings [old_booking; ana_booking]))
  /\ ~ ci_contains (fold_case env_ok) "." (name ana_booking)
  /\ ~ ci_contains (fold_case env_ok) "." (phone ana_booking)
  /\ ~ ci_contains (fold_case env_ok) "." (service ana_booking).
Proof.
  split; [reflexivity|].
  repeat split; rewrite <- rx_search_literal; discriminate.
Qed.

(** ** The auth gate *)

(** With the store up, each admin handler answers 200. *)
Lemma handler_200 (e : env) (op : operation) (st : store) :
  protected op = true -> store_ok e -> modelled op ->
  exists p : payload, snd (handler e op st) = Responded 200 p.
Proof.
  intros Hp Hs Hm. destruct op; simpl in *; try discriminate;
    unfold get_api_bookings, get_api_bookings_id, get_api_dashboard_stats,
      get_api_bookings_search, put_api_bookings_complete,
      put_api_bookings_archive, delete_api_bookings;
    rewrite ?Hs; simpl; try (eexists; reflexivity).
  destruct (rx_compile term); [eexists; reflexivity | contradiction].
Qed.

(** The gate leaves the store alone or hands over to the handler. *)
Lemma verifyToken_cases (e : env) (authorization : option string)
    (next : store -> store * outcome) (st : store) :
  fst (verifyToken e authorization next st) = st
  \/ verifyToken e authorization next st = next st.
Proof.
  unfold verifyToken. destruct authorization as [header|]; [|now left].
  destruct (header =? ""); [now left|].
  destruct (token_of header) as [token|]; [|now left].
  destruct (token =? ""); [now left|].
  destruct (jwt_verify e token); [now right | now left].
Qed.

Lemma token_of_nonempty_header (header token : string) :
  token_of header = Some token -> (header =? "") = false.
Proof. destruct header; [discriminate | reflexivity]. Qed.

Lemma split_space_cons (s : string) :
  exists hd tl, split_space s = hd :: tl.
Proof.
  induction s as [|c r (hd & tl & IH)]; simpl.
  - now exists EmptyString, [].
  - destruct (Ascii.eqb c " "); [now eexists; eexists|].
    rewrite IH. now eexists; eexists.
Qed.

Lemma split_space_word (w : string) :
  no_space w = true -> split_space w = [w].
Proof.
  unfold no_space. induction w as [|c r IH]; simpl; [reflexivity|].
  rewrite andb_true_iff, negb_true_iff. intros [Hc Hr].
  now rewrite Hc, (IH Hr).
Qed.

Lemma split_space_word_app (w rest : string) :
  no_space w = true ->
  split_space (w ++ String " " rest) = w :: split_space rest.
Proof.
  unfold no_space. induction w as [|c r IH]; simpl; [reflexivity|].
  rewrite andb_true_iff, negb_true_iff. intros [Hc Hr].
  now rewrite Hc, (IH Hr).
Qed.

Lemma token_of_scheme_token (scheme token : string) :
  no_space scheme = true -> no_space token = true ->
  token_of (scheme ++ " " ++ token) = Some token.
Proof.
  intros Hs Ht. unfold token_of.
  change (" " ++ token) with (String " " token).
  now rewrite split_space_word_app, split_space_word.
Qed.

(** What the gate does with a header made of a scheme word and a token. *)
Lemma verifyToken_two_words (e : env) (scheme token : string)
    (next : store -> store * outcome) (st : store) :
  no_space scheme = true -> no_space token = true -> token <> "" ->
  verifyToken e (Some (scheme ++ " " ++ token)) next st
  = if jwt_verify e token then next st else (st, bad_token).
Proof.
  intros Hs Ht Hne. unfold verifyToken.
  rewrite (token_of_scheme_token scheme token Hs Ht).
  apply String.eqb_neq in Hne. rewrite Hne.
  assert ((scheme ++ " " ++ token =? "") = false) as ->; [|reflexivity].
  apply String.eqb_neq. destruct scheme; discriminate.
Qed.

(** C7: on an admin route, a request without Authorization header is
    answered 401; so is one whose header has no token segment (a single
    word, or a word and a space); one whose token fails verification is
    answered 403; with a token that verifies the request reaches the
    route's handler, which answers 200 with its payload when its store
    calls succeed.  For a header made of a scheme word, a space and a
    token, the token is the one verified. *)
Theorem C7_auth_gate (e : env) (op : operation) (st : store) :
  protected op = true ->
  serve e None op st = (st, Responded 401 (PMessage "No token provided"))
  /\ (forall header,
        token_of header = None \/ token_of header = Some "" ->
        exists m, serve e (Some header) op st = (st, Responded 401 (PMessage m)))
  /\ (forall scheme,
        no_space scheme = true -> scheme <> "" ->
        serve e (Some scheme) op st
        = (st, Responded 401 (PMessage "Invalid token format"))
        /\ serve e (Some (scheme ++ " ")) op st
           = (st, Responded 401 (PMessage "Invalid token format")))
  /\ (forall header token,
        token_of header = Some token -> token <> "" ->
        jwt_verify e token = false ->
        serve e (Some header) op st
        = (st, Responded 403 (PMessage "Invalid or expired token")))
  /\ (forall header token,
        token_of header = Some token -> token <> "" ->
        jwt_verify e token = true ->
        serve e (Some header) op st = handler e op st
        /\ (store_ok e -> modelled op ->
            exists p, snd (serve e (Some header) op st) = Responded 200 p))
  /\ (forall scheme token,
        no_space scheme = true -> no_space token = true -> token <> "" ->
        token_of (scheme ++ " " ++ token) = Some token
        /\ serve e (Some (scheme ++ " " ++ token)) op st
           = if jwt_verify e token then handler e op st
             else (st, Responded 403 (PMessage "Invalid or expired token"))).
Proof.
  intros Hp. unfold serve. rewrite Hp.
  split; [reflexivity|]. split; [|split; [|split; [|split]]].
  - intros header H. unfold verifyToken.
    destruct (header =? ""); [eexists; reflexivity|].
    destruct H as [-> | ->]; eexists; reflexivity.
  - intros scheme Hs Hne. unfold verifyToken, token_of.
    assert ((scheme =? "") = false) as -> by now apply String.eqb_neq.
    assert ((scheme ++ " " =? "") = false) as ->
      by (apply String.eqb_neq; destruct scheme; discriminate).
    change (scheme ++ " ") with (scheme ++ String " " "").
    now rewrite split_space_word_app, split_space_word.
  - intros header token Ht Hne Hv. unfold verifyToken.
    rewrite (token_of_nonempty_header header token Ht), Ht.
    apply String.eqb_neq in Hne. now rewrite Hne, Hv.
  - intros header token Ht Hne Hv. unfold verifyToken.
    rewrite (token_of_nonempty_header header token Ht), Ht.
    apply String.eqb_neq in Hne. rewrite Hne, Hv.
    split; [reflexivity|]. intros Hs Hm. now apply handler_200.
  - intros scheme token Hs Ht Hne.
    split; [now apply token_of_scheme_token|].
    now apply verifyToken_two_words.
Qed.

Lemma C7_auth_gate_witness :
  serve env_ok None ListActive sample_store
  = (sample_store, Responded 401 (PMessage "No token provided"))
  /\ serve env_ok (Some "Bearer") ListActive sample_store
     = (sample_store, Responded 401 (PMessage "Invalid token format"))
  /\ serve env_ok (Some ("Bearer" ++ " " ++ "stale")) ListActive sample_store
     = (sample_store, Responded 403 (PMessage "Invalid or expired token"))
  /\ serve env_ok (Some ("Bearer" ++ " " ++ "good")) ListActive sample_store
     = (sample_store, Responded 200 (PBookings [ana_booking; old_booking])).
Proof.
  destruct (C7_auth_gate env_ok ListActive sample_store eq_refl)
    as (H1 & _ & H3 & _ & _ & H6).
  split; [exact H1|]. split.
  - apply (H3 "Bearer"); [reflexivity | discriminate].
  - split.
    + destruct (H6 "Bearer" "stale") as [_ ->];
        [reflexivity | reflexivity | discriminate | reflexivity].
    + destruct (H6 "Bearer" "good") as [_ ->];
        [reflexivity | reflexivity | discriminate | reflexivity].
Defined.

(** The four cases on concrete headers. *)
Example auth_gate_examples :
  snd (serve env_ok None Stats sample_store) = Responded 401 (PMessage "No token provided")
  /\ snd (serve env_ok (Some "Bearer") Stats sample_store)
     = Responded 401 (PMessage "Invalid token format")
  /\ snd (serve env_ok (Some "Bearer ") Stats sample_store)
     = Responded 401 (PMessage "Invalid token format")
  /\ snd (serve env_ok (Some "Bearer stale") Stats sample_store)
     = Responded 403 (PMessage "Invalid or expired token")
  /\ snd (serve env_ok (Some "Bearer good") Stats sample_store)
     = Responded 200 (PStats 2 1 1).
Proof. repeat split. Qed.

(** ** Store failures *)

(** C8 does not hold of the code: only the create and the stats handlers
    wrap their store calls in [try]/[catch].  When the store call rejects,
    those two answer 500 with a JSON message, while the list, get-by-id,
    search, mark-complete, archive and delete handlers reject without
    writing any response. *)
Theorem C8_store_failure_escapes_six_handlers (e : env) (op : operation) (st : store) :
  (forall k, store_up e k = false) ->
  match op with
  | Create (Some body) =>
      required_truthy body = true ->
      handler e op st = (st, Responded 500 (PMessage "Server error"))
  | Create None =>
      handler e op st = (st, Responded 500 (PMessage "Server error"))
  | Stats =>
      handler e op st = (st, Responded 500 (PMessage "Error fetching stats"))
  | _ => handler e op st = (st, Rejected)
  end.
Proof.
  intros Hdown. destruct op; simpl;
    unfold get_api_bookings, get_api_bookings_id, get_api_dashboard_stats,
      get_api_bookings_search, put_api_bookings_complete,
      put_api_bookings_archive, delete_api_bookings;
    rewrite ?Hdown; try reflexivity.
  destruct req_body as [body|]; simpl; [|reflexivity].
  intros Hg. unfold post_api_bookings. rewrite post_guard, Hg, Hdown. simpl.
  destruct (newBooking e st body); reflexivity.
Qed.

Lemma C8_store_failure_escapes_six_handlers_witness :
  handler env_store_down ListActive sample_store = (sample_store, Rejected).
Proof.
  apply (C8_store_failure_escapes_six_handlers env_store_down ListActive sample_store).
  reflexivity.
Defined.

Example store_failure_on_the_list_route :
  serve env_store_down (Some "Bearer good") ListActive sample_store
  = (sample_store, Rejected).
Proof. reflexivity. Qed.

(** ** Well-formed stores *)

Lemma update_first_ids (id : nat) (f : Booking -> Booking) (l : list Booking) :
  (forall b, _id (f b) = _id b) ->
  map _id (update_first id f l) = map _id l.
Proof.
  intros Hf. induction l as [|x r IH]; simpl; [reflexivity|].
  destruct (Nat.eqb (_id x) id); simpl; [now rewrite Hf | now rewrite IH].
Qed.

Lemma delete_first_incl (id : nat) (l : list Booking) (b : Booking) :
  In b (delete_first id l) -> In b l.
Proof.
  induction l as [|x r IH]; simpl; [tauto|].
  destruct (Nat.eqb (_id x) id); simpl; [tauto|].
  intros [H|H]; [now left | right; now apply IH].
Qed.

Lemma delete_first_nodup (id : nat) (l : list Booking) :
  NoDup (map _id l) -> NoDup (map _id (delete_first id l)).
Proof.
  induction l as [|x r IH]; simpl; [trivial|].
  intros H. inversion H as [|? ? Hx Hr]; subst.
  destruct (Nat.eqb (_id x) id); simpl; [assumption|].
  constructor; [|now apply IH].
  intros Hin. apply Hx. apply in_map_iff in Hin.
  destruct Hin as (y & Ey & Hy). apply in_map_iff.
  exists y. split; [assumption | now apply delete_first_incl in Hy].
Qed.

Lemma find_update_first (id i : nat) (f : Booking -> Booking) (l : list Booking) :
  (forall b, _id (f b) = _id b) ->
  find (has_id id) (update_first i f l)
  = if Nat.eqb id i then option_map f (find (has_id id) l)
    else find (has_id id) l.
Proof.
  intros Hf. unfold has_id. induction l as [|x r IH]; simpl.
  - id_cases.
  - destruct (Nat.eqb_spec (_id x) i) as [Ex|Ex]; simpl.
    + rewrite Hf. id_cases.
    + rewrite IH. id_cases.
Qed.

Lemma find_absent (id : nat) (l : list Booking) :
  ~ In id (map _id l) -> find (has_id id) l = None.
Proof.
  unfold has_id. induction l as [|x r IH]; simpl; [reflexivity|].
  intros H. destruct (Nat.eqb_spec (_id x) id) as [E|E]; [tauto|].
  apply IH. tauto.
Qed.

Lemma find_delete_first (id i : nat) (l : list Booking) :
  NoDup (map _id l) ->
  find (has_id id) (delete_first i l)
  = if Nat.eqb id i then None else find (has_id id) l.
Proof.
  induction l as [|x r IH]; simpl; intros Hnd.
  - id_cases.
  - inversion Hnd as [|? ? Hx Hr]; subst. specialize (IH Hr).
    destruct (Nat.eqb_spec (_id x) i) as [Ex|Ex]; simpl.
    + destruct (Nat.eqb_spec id i) as [Ei|Ei].
      * apply find_absent. congruence.
      * unfold has_id at 2. id_cases.
    + rewrite IH. unfold has_id at 1 3. id_cases.
Qed.

Lemma find_app_existing (id : nat) (l : list Booking) (b x : Booking) :
  find (has_id id) l = Some b -> find (has_id id) (l ++ [x]) = Some b.
Proof.
  induction l as [|y r IH]; simpl; [discriminate|].
  destruct (has_id id y); [trivial | exact IH].
Qed.

(** What the create handler can do to the store. *)
Lemma post_store_cases (e : env) (body : create_body) (st : store) :
  fst (post_api_bookings e body st) = st
  \/ exists b, newBooking e st body = Some b
               /\ fst (post_api_bookings e body st) = insertBooking b st.
Proof.
  unfold post_api_bookings.
  destruct (_ || _); [now left|].
  destruct (newBooking e st body) as [b|]; [|now left].
  destruct (store_up e 0); simpl; [|now left].
  right. exists b. split; [reflexivity|].
  destruct (confirmation_throws body), (mail_up e 0), (alert_throws body),
    (mail_up e 1); reflexivity.
Qed.

Lemma newBooking_defaults (e : env) (st : store) (body : create_body) (b : Booking) :
  newBooking e st body = Some b ->
  status b = "Pending" /\ archived b = false /\ _id b = next_id st
  /\ createdAt b = now e /\ updatedAt b = now e.
Proof.
  unfold newBooking.
  destruct (castRequired e (req_name body)), (castRequired e (req_email body)),
    (castRequired e (req_phone body)), (castRequired e (req_service body)),
    (castRequired e (req_date body)), (castOptional e (req_message body));
    try discriminate.
  intros H. injection H as <-. repeat split.
Qed.

(** The store after the handler of an operation ran. *)
Lemma handler_store (e : env) (op : operation) (st : store) :
  fst (handler e op st) = st
  \/ (exists body b, op = Create (Some body) /\ newBooking e st body = Some b
                     /\ fst (handler e op st) = insertBooking b st)
  \/ (exists id, op = MarkCompleted id
                 /\ fst (handler e op st)
                    = findByIdAndUpdate id (set_status "Completed" (now e)) st)
  \/ (exists id, op = Archive id
                 /\ fst (handler e op st)
                    = findByIdAndUpdate id (set_archived true (now e)) st)
  \/ (exists id, op = Delete id
                 /\ fst (handler e op st) = findByIdAndDelete id st).
Proof.
  destruct op; simpl.
  - destruct req_body as [body|]; simpl; [|now left].
    destruct (post_store_cases e body st) as [H | (b & Hb & H)]; [now left|].
    right. left. now exists body, b.
  - left. unfold get_api_bookings. now destruct (store_up e 0).
  - left. unfold get_api_bookings_id. now destruct (store_up e 0).
  - left. unfold get_api_dashboard_stats. now destruct (_ && _).
  - left. unfold get_api_bookings_search.
    destruct (store_up e 0); [|reflexivity]. now destruct (rx_compile term).
  - unfold put_api_bookings_complete.
    destruct (store_up e 0); [|now left]. right. right. left. now exists id.
  - unfold put_api_bookings_archive.
    destruct (store_up e 0); [|now left]. do 3 right. left. now exists id.
  - unfold delete_api_bookings.
    destruct (store_up e 0); [|now left]. do 4 right. now exists id.
Qed.

Lemma serve_store (e : env) (authorization : option string) (op : operation)
    (st : store) :
  fst (serve e authorization op st) = st
  \/ fst (serve e authorization op st) = fst (handler e op st).
Proof.
  unfold serve. destruct (protected op); [|now right].
  destruct (verifyToken_cases e authorization (handler e op) st) as [H | H];
    [now left | right; now rewrite H].
Qed.

(** Serving a request keeps the store well formed. *)
Lemma serve_wf (e : env) (authorization : option string) (op : operation)
    (st : store) :
  wf st -> wf (fst (serve e authorization op st)).
Proof.
  intros [Hnd Hlt].
  destruct (serve_store e authorization op st) as [-> | ->]; [now split|].
  destruct (handler_store e op st)
    as [-> | [(body & b & _ & Hb & ->) | [(id & _ & ->) | [(id & _ & ->) | (id & _ & ->)]]]].
  - now split.
  - apply newBooking_defaults in Hb. destruct Hb as (_ & _ & Hid & _).
    split; simpl.
    + rewrite map_app. simpl. apply NoDup_app_remove_r with (l' := []).
      rewrite app_nil_r. apply Permutation_NoDup with (l := _id b :: map _id (docs st)).
      * apply Permutation_cons_append.
      * constructor; [|assumption]. rewrite Hid. intros Hin.
        apply in_map_iff in Hin. destruct Hin as (y & Ey & Hy).
        rewrite Forall_forall in Hlt. specialize (Hlt y Hy). lia.
    + apply Forall_app. split.
      * eapply Forall_impl; [|exact Hlt]. simpl. intros; lia.
      * constructor; [lia | constructor].
  - split; simpl.
    + now rewrite update_first_ids.
    + rewrite Forall_forall in *. intros y Hy.
      assert (Hin : In (_id y) (map _id (update_first id (set_status "Completed" (now e)) (docs st))))
        by now apply in_map.
      rewrite update_first_ids in Hin by reflexivity.
      apply in_map_iff in Hin. destruct Hin as (z & Ez & Hz).
      rewrite <- Ez. now apply Hlt.
  - split; simpl.
    + now rewrite update_first_ids.
    + rewrite Forall_forall in *. intros y Hy.
      assert (Hin : In (_id y) (map _id (update_first id (set_archived true (now e)) (docs st))))
        by now apply in_map.
      rewrite update_first_ids in Hin by reflexivity.
      apply in_map_iff in Hin. destruct Hin as (z & Ez & Hz).
      rewrite <- Ez. now apply Hlt.
  - split; simpl.
    + now apply delete_first_nodup.
    + rewrite Forall_forall in *. intros y Hy.
      apply Hlt. now apply delete_first_incl in Hy.
Qed.

(** ** The archived flag *)

(** How the archived flag of the document with identifier [id] moves when
    the handler of [op] runs on a well-formed store. *)
Lemma handler_archived (e : env) (op : operation) (st : store)
    (id : nat) (b b' : Booking) :
  wf st ->
  findById id st = Some b ->
  findById id (fst (handler e op st)) = Some b' ->
  archived b' = archived b
  \/ (op = Archive id /\ archived b' = true).
Proof.
  intros [Hnd _] Hb Hb'. unfold findById in *.
  destruct (handler_store e op st)
    as [E | [(body & nb & _ & _ & E) | [(i & _ & E) | [(i & Eop & E) | (i & _ & E)]]]];
    rewrite E in Hb'; simpl in Hb'.
  - left. congruence.
  - left. rewrite (find_app_existing id (docs st) b nb Hb) in Hb'. congruence.
  - left. change (find (has_id id) (update_first i (set_status "Completed" (now e)) (docs st)) = Some b') in Hb'.
    rewrite find_update_first in Hb' by reflexivity.
    change (find (has_id id) (docs st) = Some b) in Hb. rewrite Hb in Hb'.
    destruct (Nat.eqb id i); simpl in Hb'; injection Hb' as <-; reflexivity.
  - change (find (has_id id) (update_first i (set_archived true (now e)) (docs st)) = Some b') in Hb'.
    rewrite find_update_first in Hb' by reflexivity.
    change (find (has_id id) (docs st) = Some b) in Hb. rewrite Hb in Hb'.
    destruct (Nat.eqb_spec id i) as [Ei|Ei]; simpl in Hb'; injection Hb' as <-.
    + right. subst i. now split.
    + now left.
  - left. change (find (has_id id) (delete_first i (docs st)) = Some b') in Hb'.
    rewrite find_delete_first in Hb' by assumption.
    change (find (has_id id) (docs st) = Some b) in Hb. rewrite Hb in Hb'.
    destruct (Nat.eqb id i); [discriminate | congruence].
Qed.

(** C9: on a well-formed store, whatever request is served: a Booking that
    the request creates has archived = false; a request other than
    archive(id) leaves the archived flag of every existing Booking as it
    was; archive(id) sets the flag of the matching Booking to true; hence no
    request turns the flag of an existing Booking from true to false. *)
Theorem C9_archived_is_monotonic
    (e : env) (authorization : option string) (op : operation) (st : store) :
  wf st ->
  let st' := fst (serve e authorization op st) in
  (forall body, op = Create body ->
     st' = st
     \/ exists b', docs st' = (docs st ++ [b'])%list
                   /\ findById (_id b') st = None /\ archived b' = false)
  /\ (forall id b b',
        (forall i, op <> Archive i) ->
        findById id st = Some b -> findById id st' = Some b' ->
        archived b' = archived b)
  /\ (forall i id b b',
        op = Archive i ->
        findById id st = Some b -> findById id st' = Some b' ->
        archived b' = archived b \/ (id = i /\ archived b' = true))
  /\ (forall i b,
        op = Archive i -> findById i st = Some b ->
        serve e authorization op st = handler e op st -> store_up e 0 = true ->
        exists b', findById i st' = Some b' /\ archived b' = true)
  /\ (forall id b b',
        findById id st = Some b -> archived b = true ->
        findById id st' = Some b' -> archived b' = true).
Proof.
  intros Hwf st'.
  assert (Hmove : forall id b b',
             findById id st = Some b -> findById id st' = Some b' ->
             archived b' = archived b \/ (op = Archive id /\ archived b' = true)).
  { intros id b b' Hb Hb'. subst st'.
    destruct (serve_store e authorization op st) as [E | E]; rewrite E in Hb'.
    - left. congruence.
    - now apply (handler_archived e op st id b b'). }
  split; [|split; [|split; [|split]]].
  - intros [body|] ->; subst st'; unfold serve; simpl; [|now left].
    destruct (post_store_cases e body st) as [H | (nb & Hnb & H)]; [now left|].
    right. exists nb. rewrite H. split; [reflexivity|].
    apply newBooking_defaults in Hnb. destruct Hnb as (_ & Ha & Hid & _).
    split; [|exact Ha].
    apply find_absent. rewrite Hid. intros Hin.
    apply in_map_iff in Hin. destruct Hin as (y & Ey & Hy).
    destruct Hwf as [_ Hlt]. rewrite Forall_forall in Hlt.
    specialize (Hlt y Hy). lia.
  - intros id b b' Hop Hb Hb'.
    destruct (Hmove id b b' Hb Hb') as [H | [H _]]; [exact H|].
    now apply Hop in H.
  - intros i id b b' Hop Hb Hb'.
    destruct (Hmove id b b' Hb Hb') as [H | [H Ht]]; [now left|].
    right. split; [congruence | exact Ht].
  - intros i b -> Hb Hserve Hs. subst st'. rewrite Hserve. simpl.
    unfold put_api_bookings_archive. rewrite Hs. simpl.
    exists (set_archived true (now e) b). split; [|reflexivity].
    unfold findById in *. simpl.
    change (find (has_id i) (update_first i (set_archived true (now e)) (docs st))
            = Some (set_archived true (now e) b)).
    rewrite find_update_first by reflexivity.
    change (find (has_id i) (docs st) = Some b) in Hb.
    now rewrite Nat.eqb_refl, Hb.
  - intros id b b' Hb Ha Hb'.
    destruct (Hmove id b b' Hb Hb') as [H | [_ H]]; congruence.
Qed.

Lemma sample_store_wf : wf sample_store.
Proof.
  split; simpl.
  - repeat constructor; simpl; intuition discriminate.
  - repeat constructor.
Qed.

Lemma C9_archived_is_monotonic_witness :
  exists b' : Booking,
    findById 2 (fst (serve env_ok (Some "Bearer good") (MarkCompleted 2) sample_store))
    = Some b'
    /\ status b' = "Completed" /\ archived b' = true.
Proof.
  eexists. split; [reflexivity|]. split; [reflexivity|].
  destruct (C9_archived_is_monotonic env_ok (Some "Bearer good") (MarkCompleted 2)
              sample_store sample_store_wf) as (_ & _ & _ & _ & Hmono).
  apply (Hmono 2 archived_booking); reflexivity.
Defined.

Lemma empty_store_wf : wf empty_store.
Proof. split; constructor. Qed.

(** ** Single-field updates *)

Lemma store_eta (st : store) : mkStore (docs st) (next_id st) = st.
Proof. now destruct st. Qed.

(** C10, as amended: the complete handler and the archive handler rewrite
    one document, the first with the given identifier, and nothing else in
    the store; in that document the complete handler writes status (to
    "Completed") and the archive handler writes archived (to true), each of
    them also refreshes updatedAt, and all other fields keep their values.
    With no matching document the store is unchanged. *)
Theorem C10_updates_touch_one_field_and_updatedAt (e : env) (id : nat) (st : store) :
  store_up e 0 = true ->
  let completed := fst (put_api_bookings_complete e id st) in
  let archived' := fst (put_api_bookings_archive e id st) in
  next_id completed = next_id st
  /\ next_id archived' = next_id st
  /\ (findById id st = None -> completed = st /\ archived' = st)
  /\ (forall b, findById id st = Some b ->
        exists l1 l2,
          docs st = (l1 ++ b :: l2)%list
          /\ docs completed
             = (l1 ++ mkBooking (_id b) (name b) (email b) (phone b) (service b)
                        (date b) (message b) "Completed" (archived b)
                        (createdAt b) (now e) :: l2)%list
          /\ docs archived'
             = (l1 ++ mkBooking (_id b) (name b) (email b) (phone b) (service b)
                        (date b) (message b) (status b) true
                        (createdAt b) (now e) :: l2)%list).
Proof.
  intros Hs. unfold put_api_bookings_complete, put_api_bookings_archive.
  rewrite Hs. simpl. split; [reflexivity|]. split; [reflexivity|]. split.
  - intros Hnone. unfold findById in Hnone. unfold findByIdAndUpdate.
    rewrite !update_first_missing by assumption.
    now rewrite store_eta.
  - intros b Hb. unfold findById in Hb.
    destruct (find_split id (docs st) b Hb) as (l1 & l2 & E & Hl1 & Hid).
    exists l1, l2. rewrite E.
    split; [reflexivity|]. split; now apply update_first_at.
Qed.

Lemma C10_updates_touch_one_field_and_updatedAt_witness :
  let completed := fst (put_api_bookings_complete env_later 0 pending_store) in
  let archived' := fst (put_api_bookings_archive env_later 0 pending_store) in
  next_id completed = next_id pending_store
  /\ next_id archived' = next_id pending_store
  /\ (findById 0 pending_store = None ->
      completed = pending_store /\ archived' = pending_store)
  /\ (forall b, findById 0 pending_store = Some b ->
        exists l1 l2,
          docs pending_store = (l1 ++ b :: l2)%list
          /\ docs completed
             = (l1 ++ mkBooking (_id b) (name b) (email b) (phone b) (service b)
                        (date b) (message b) "Completed" (archived b)
                        (createdAt b) (now env_later) :: l2)%list
          /\ docs archived'
             = (l1 ++ mkBooking (_id b) (name b) (email b) (phone b) (service b)
                        (date b) (message b) (status b) true
                        (createdAt b) (now env_later) :: l2)%list).
Proof.
  apply (C10_updates_touch_one_field_and_updatedAt env_later 0 pending_store).
  reflexivity.
Defined.

(** C10 as stated fails: the complete handler writes a second field of the
    matching Booking, its updatedAt timestamp. *)
Lemma C10_complete_also_writes_updatedAt :
  findById 0 pending_store = Some ana_booking
  /\ updatedAt ana_booking = 1000%Z
  /\ findById 0 (fst (put_api_bookings_complete env_later 0 pending_store))
     = Some (mkBooking 0 "Ana" "a@x.com" "555" "Oil Change" "2024-05-01" None
                       "Completed" false 1000 2000)
  /\ findById 0 (fst (put_api_bookings_archive env_later 0 pending_store))
     = Some (mkBooking 0 "Ana" "a@x.com" "555" "Oil Change" "2024-05-01" None
                       "Pending" true 1000 2000).
Proof. repeat split. Qed.

(** ** The token segment of a header *)

(** X1: the gate takes as token the second space-separated word of the
    header: a header of one word has no token, and in
    [scheme token] or [scheme token more...] the token is [token]. *)
Theorem X1_token_is_second_word (scheme token rest : string) :
  no_space scheme = true ->
  no_space token = true ->
  token_of scheme = None
  /\ token_of (scheme ++ " " ++ token) = Some token
  /\ token_of (scheme ++ " " ++ token ++ " " ++ rest) = Some token.
Proof.
  intros Hs Ht. unfold token_of. repeat split.
  - now rewrite split_space_word.
  - change (" " ++ token) with (String " " token).
    now rewrite split_space_word_app, split_space_word.
  - change (" " ++ token ++ " " ++ rest) with (String " " (token ++ String " " rest)).
    now rewrite !split_space_word_app.
Qed.

Lemma X1_token_is_second_word_witness :
  token_of "Bearer" = None
  /\ token_of ("Bearer" ++ " " ++ "abc.def") = Some "abc.def"
  /\ token_of ("Bearer" ++ " " ++ "abc.def" ++ " " ++ "x y") = Some "abc.def".
Proof.
  apply (X1_token_is_second_word "Bearer" "abc.def" "x y"); reflexivity.
Defined.

(** X2: the gate does not look at the scheme word: with any word in place
    of "Bearer" (even none) before the token, an admin request is served as
    with "Bearer". *)
Theorem X2_scheme_is_not_checked
    (e : env) (op : operation) (st : store) (scheme token : string) :
  no_space scheme = true ->
  no_space token = true ->
  token <> "" ->
  serve e (Some (scheme ++ " " ++ token)) op st
  = serve e (Some ("Bearer " ++ token)) op st.
Proof.
  intros Hs Ht Hne. unfold serve. destruct (protected op); [|reflexivity].
  rewrite (verifyToken_two_words e scheme token _ st Hs Ht Hne).
  change ("Bearer " ++ token) with ("Bearer" ++ " " ++ token).
  now rewrite (verifyToken_two_words e "Bearer" token _ st eq_refl Ht Hne).
Qed.

Lemma X2_scheme_is_not_checked_witness :
  serve env_ok (Some ("Basic" ++ " " ++ "good")) (Delete 0) pending_store
  = serve env_ok (Some ("Bearer " ++ "good")) (Delete 0) pending_store.
Proof.
  apply (X2_scheme_is_not_checked env_ok (Delete 0) pending_store "Basic" "good");
    [reflexivity | reflexivity | discriminate].
Defined.

(** X3: an admin request without a token that verifies changes nothing:
    the store is as before and the answer is 401 or 403. *)
Theorem X3_unauthenticated_requests_change_nothing
    (e : env) (authorization : option string) (op : operation) (st : store) :
  protected op = true ->
  (forall header token,
     authorization = Some header -> token_of header = Some token ->
     jwt_verify e token = false) ->
  fst (serve e authorization op st) = st
  /\ exists m, snd (serve e authorization op st) = Responded 401 (PMessage m)
               \/ snd (serve e authorization op st) = Responded 403 (PMessage m).
Proof.
  intros Hp Hbad. unfold serve. rewrite Hp. unfold verifyToken.
  destruct authorization as [header|]; [|split; [reflexivity | eexists; now left]].
  destruct (header =? ""); [split; [reflexivity | eexists; now left]|].
  destruct (token_of header) as [token|] eqn:Ht;
    [|split; [reflexivity | eexists; now left]].
  destruct (token =? ""); [split; [reflexivity | eexists; now left]|].
  rewrite (Hbad header token eq_refl Ht).
  split; [reflexivity | eexists; now right].
Qed.

Lemma X3_unauthenticated_requests_change_nothing_witness :
  fst (serve env_ok (Some "Bearer stale") (Delete 0) pending_store) = pending_store
  /\ exists m,
       snd (serve env_ok (Some "Bearer stale") (Delete 0) pending_store)
       = Responded 401 (PMessage m)
       \/ snd (serve env_ok (Some "Bearer stale") (Delete 0) pending_store)
          = Responded 403 (PMessage m).
Proof.
  apply (X3_unauthenticated_requests_change_nothing env_ok (Some "Bearer stale")
           (Delete 0) pending_store); [reflexivity|].
  intros header token H. injection H as <-. intros H. injection H as <-.
  reflexivity.
Defined.

(** ** Logging in *)



(** ** What a create request does *)

Lemma required_truthy_false_guard (e : env) (body : create_body) (st : store) :
  required_truthy body = false ->
  post_api_bookings e body st
  = (st, Responded 400 (PMessage "All required fields are required")).
Proof. intros H. unfold post_api_bookings. now rewrite post_guard, H. Qed.

(** The create handler, by cases on what it tested. *)
Lemma post_cases (e : env) (body : create_body) (st : store) :
  (required_truthy body = false
   /\ post_api_bookings e body st
      = (st, Responded 400 (PMessage "All required fields are required")))
  \/ (required_truthy body = true
      /\ (newBooking e st body = None \/ store_up e 0 = false)
      /\ post_api_bookings e body st = (st, server_error))
  \/ (exists b,
        required_truthy body = true /\ newBooking e st body = Some b
        /\ store_up e 0 = true
        /\ post_api_bookings e body st
           = (insertBooking b st,
              if delivered e body
              then Responded 201 (PMessage "Booking successful")
              else server_error)).
Proof.
  destruct (required_truthy body) eqn:Hg.
  - right. destruct (newBooking e st body) as [b|] eqn:Hb.
    + destruct (store_up e 0) eqn:Hs.
      * right. exists b. repeat split; try assumption.
        now apply post_after_save.
      * left. repeat split; [now right|].
        unfold post_api_bookings. now rewrite post_guard, Hg, Hb, Hs.
    + left. repeat split; [now left|].
      unfold post_api_bookings. now rewrite post_guard, Hg, Hb.
  - left. split; [reflexivity|]. now apply required_truthy_false_guard.
Qed.

Lemma insertBooking_changes (b : Booking) (st : store) : insertBooking b st <> st.
Proof.
  intros H. apply (f_equal next_id) in H. simpl in H.
  now apply Nat.neq_succ_diag_l in H.
Qed.

Lemma delivered_true (e : env) (body : create_body) :
  delivered e body = true ->
  confirmation_throws body = false /\ mail_up e 0 = true
  /\ alert_throws body = false /\ mail_up e 1 = true.
Proof.
  unfold delivered. rewrite !andb_true_iff, !negb_true_iff. tauto.
Qed.

Lemma delivered_false (e : env) (body : create_body) :
  delivered e body = false ->
  confirmation_throws body = true \/ mail_up e 0 = false
  \/ alert_throws body = true \/ mail_up e 1 = false.
Proof.
  unfold delivered.
  destruct (confirmation_throws body), (mail_up e 0), (alert_throws body),
    (mail_up e 1); simpl; auto; discriminate.
Qed.

(** X6: the answer of a create request tells what happened to the store.
    The handler always answers, with 201, 400 or 500.  After a 201 exactly
    one Booking was appended, both mails were built and both sends
    succeeded.  After a 400 the body had a falsy required field and the
    store is as before.  After a 500 either no body had been parsed and the
    store is as before, or every required field was truthy, and then either
    the store is as before or the Booking was appended and building or
    sending one of the mails failed. *)
Theorem X6_create_answer_tells_the_effect
    (e : env) (req_body : option create_body) (st : store) :
  let r := post_api_bookings_req e req_body st in
  (exists code m, snd r = Responded code (PMessage m)
                  /\ (code = 201 \/ code = 400 \/ code = 500))
  /\ (forall p, snd r = Responded 201 p ->
        exists body b,
          req_body = Some body /\ newBooking e st body = Some b
          /\ fst r = insertBooking b st
          /\ confirmation_throws body = false /\ mail_up e 0 = true
          /\ alert_throws body = false /\ mail_up e 1 = true)
  /\ (forall p, snd r = Responded 400 p ->
        exists body,
          req_body = Some body /\ required_truthy body = false /\ fst r = st)
  /\ (forall p, snd r = Responded 500 p ->
        (req_body = None /\ fst r = st)
        \/ exists body,
             req_body = Some body /\ required_truthy body = true
             /\ (fst r = st
                 \/ exists b,
                      newBooking e st body = Some b
                      /\ fst r = insertBooking b st
                      /\ (confirmation_throws body = true \/ mail_up e 0 = false
                          \/ alert_throws body = true \/ mail_up e 1 = false))).
Proof.
  cbv zeta. destruct req_body as [body|]; simpl.
  2:{ split; [do 2 eexists; split; [reflexivity | auto]|].
      split; [discriminate|]. split; [discriminate|].
      intros p _. now left. }
  destruct (post_cases e body st)
    as [(Hg & ->) | [(Hg & Hwhy & ->) | (b & Hg & Hb & Hs & ->)]]; simpl.
  - split; [do 2 eexists; split; [reflexivity | auto]|].
    split; [discriminate|]. split; [|discriminate].
    intros p _. now exists body.
  - split; [do 2 eexists; split; [reflexivity | auto]|].
    split; [discriminate|]. split; [discriminate|].
    intros p _. right. exists body. repeat split; auto.
  - destruct (delivered e body) eqn:Hd; simpl.
    + apply delivered_true in Hd.
      split; [do 2 eexists; split; [reflexivity | auto]|].
      split; [intros p _; exists body, b; tauto|].
      split; discriminate.
    + apply delivered_false in Hd.
      split; [do 2 eexists; split; [reflexivity | auto]|].
      split; [discriminate|]. split; [discriminate|].
      intros p _. right. exists body. repeat split; auto.
      right. exists b. auto.
Qed.

Lemma X6_create_answer_tells_the_effect_witness :
  exists body b,
    Some ana = Some body /\ newBooking env_ok empty_store body = Some b
    /\ fst (post_api_bookings_req env_ok (Some ana) empty_store)
       = insertBooking b empty_store
    /\ confirmation_throws body = false /\ mail_up env_ok 0 = true
    /\ alert_throws body = false /\ mail_up env_ok 1 = true.
Proof.
  apply (proj1 (proj2 (X6_create_answer_tells_the_effect env_ok (Some ana) empty_store))
           (PMessage "Booking successful")).
  reflexivity.
Defined.

(** X7: mail is sent only for a Booking that was written.  Whenever the
    create handler sends anything, the Booking is in the store; what it
    sends is first the confirmation to the submitted email, then the admin
    alert; after a write it sends nothing exactly when building the
    confirmation throws; the alert is sent exactly when the confirmation
    was sent and succeeded and the alert could be built; and the answer is
    201 exactly when the alert was sent and succeeded. *)
Theorem X7_mail_only_after_the_write (e : env) (body : create_body) (st : store) :
  let sends := post_api_bookings_sends e body st in
  let r := post_api_bookings e body st in
  (sends <> [] ->
   exists b, newBooking e st body = Some b /\ fst r = insertBooking b st)
  /\ (sends = []
      \/ sends = [Confirmation (req_email body)]
      \/ sends = [Confirmation (req_email body); AdminAlert])
  /\ (fst r <> st -> (sends = [] <-> confirmation_throws body = true))
  /\ (In AdminAlert sends
      <-> sends <> [] /\ mail_up e 0 = true /\ alert_throws body = false)
  /\ (snd r = Responded 201 (PMessage "Booking successful")
      <-> In AdminAlert sends /\ mail_up e 1 = true).
Proof.
  cbv zeta. unfold post_api_bookings_sends. rewrite post_guard.
  destruct (post_cases e body st)
    as [(Hg & ->) | [(Hg & Hwhy & ->) | (b & Hg & Hb & Hs & ->)]];
    rewrite Hg; simpl.
  - intuition (auto; try discriminate; try congruence).
  - assert (Hs : match newBooking e st body with
                 | Some _ =>
                     if negb (store_up e 0) then []
                     else if confirmation_throws body then []
                     else if negb (mail_up e 0)
                          then [Confirmation (req_email body)]
                          else if alert_throws body
                               then [Confirmation (req_email body)]
                               else [Confirmation (req_email body); AdminAlert]
                 | None => []
                 end = []).
    { destruct Hwhy as [-> | H]; [reflexivity|].
      rewrite H. now destruct (newBooking e st body). }
    rewrite Hs. unfold server_error. simpl.
    intuition (auto; try discriminate; try congruence).
  - rewrite Hb, Hs. unfold delivered. simpl.
    pose proof (insertBooking_changes b st) as Hne.
    destruct (confirmation_throws body) eqn:C0, (mail_up e 0) eqn:M0,
      (alert_throws body) eqn:C1, (mail_up e 1) eqn:M1;
      unfold server_error; simpl;
      (split; [intros _; now exists b|]);
      intuition (auto; try discriminate; try congruence).
Qed.

Lemma X7_mail_only_after_the_write_witness :
  let body := mkBody (JObj [("_id", JStr "Ana"); ("toString", JNum 5)])
                     (JStr "a@x.com") (JStr "555") (JStr "Oil Change")
                     (JStr "2024-05-01") JUndefined in
  post_api_bookings_sends env_ok body empty_store = []
  <-> confirmation_throws body = true.
Proof.
  cbv zeta.
  apply (proj1 (proj2 (proj2
           (X7_mail_only_after_the_write env_ok
              (mkBody (JObj [("_id", JStr "Ana"); ("toString", JNum 5)])
                      (JStr "a@x.com") (JStr "555") (JStr "Oil Change")
                      (JStr "2024-05-01") JUndefined)
              empty_store)))).
  discriminate.
Defined.

(** ** A create request followed by a read *)

Lemma post_201_inv (e : env) (body : create_body) (st st' : store) (p : payload) :
  post_api_bookings e body st = (st', Responded 201 p) ->
  exists b, newBooking e st body = Some b /\ st' = insertBooking b st.
Proof.
  intros H.
  destruct (post_cases e body st)
    as [(Hg & E) | [(Hg & Hwhy & E) | (b & Hg & Hb & Hs & E)]];
    rewrite E in H; try discriminate.
  exists b. split; [assumption|]. now injection H as <- _.
Qed.

Lemma sort_desc_newest_last (l : list Booking) (b : Booking) :
  Forall (fun x => (createdAt x < createdAt b)%Z) l ->
  sort_desc (l ++ [b]) = b :: sort_desc l.
Proof.
  induction 1 as [|x r Hx Hr IH]; simpl; [reflexivity|].
  rewrite IH. simpl.
  destruct (Z.leb_spec (createdAt b) (createdAt x)); [lia | reflexivity].
Qed.

Lemma count_insert (f : Booking -> bool) (b : Booking) (st : store) :
  countDocuments f (insertBooking b st) = countDocuments f st + indicator (f b).
Proof.
  unfold countDocuments. simpl. rewrite count_app. simpl.
  now destruct (f b).
Qed.

(** X8: a fresh Booking heads the admin list.  After a create that answered
    201 at a time later than every stored creation time, the list handler
    answers with the new Booking first, followed by what it listed
    before. *)
Theorem X8_new_booking_heads_the_list
    (e e' : env) (body : create_body) (st st' : store) (p : payload) :
  post_api_bookings e body st = (st', Responded 201 p) ->
  Forall (fun x => (createdAt x < now e)%Z) (docs st) ->
  store_up e' 0 = true ->
  exists b,
    docs st' = (docs st ++ [b])%list
    /\ status b = "Pending"
    /\ get_api_bookings e' st'
       = (st', Responded 200 (PBookings (b :: findActiveSorted st))).
Proof.
  intros Hpost Hold Hs.
  destruct (post_201_inv e body st st' p Hpost) as (b & Hb & ->).
  destruct (newBooking_defaults e st body b Hb) as (Hst & Ha & _ & Hc & _).
  exists b. split; [reflexivity|]. split; [exact Hst|].
  unfold get_api_bookings. rewrite Hs. do 3 f_equal.
  unfold findActiveSorted. simpl. rewrite filter_app. simpl.
  unfold active at 2. rewrite Ha. simpl.
  apply sort_desc_newest_last. rewrite Hc.
  apply Forall_forall. intros x Hx. apply filter_In in Hx.
  rewrite Forall_forall in Hold. now apply Hold.
Qed.

Lemma X8_new_booking_heads_the_list_witness :
  exists b,
    docs (insertBooking ana_booking (mkStore [old_booking] 0))
    = (docs (mkStore [old_booking] 0) ++ [b])%list
    /\ status b = "Pending"
    /\ get_api_bookings env_ok (insertBooking ana_booking (mkStore [old_booking] 0))
       = (insertBooking ana_booking (mkStore [old_booking] 0),
          Responded 200 (PBookings (b :: findActiveSorted (mkStore [old_booking] 0)))).
Proof.
  apply (X8_new_booking_heads_the_list env_ok env_ok ana (mkStore [old_booking] 0)
           (insertBooking ana_booking (mkStore [old_booking] 0))
           (PMessage "Booking successful")).
  - reflexivity.
  - repeat constructor.
  - reflexivity.
Defined.

(** X9: a create that answered 201 adds one to the total and to the pending
    count of the dashboard and leaves the completed count as it was. *)
Theorem X9_create_adds_one_pending
    (e e1 e2 : env) (body : create_body) (st st' : store) (p : payload) :
  post_api_bookings e body st = (st', Responded 201 p) ->
  store_ok e1 -> store_ok e2 ->
  exists total pending completed : nat,
    snd (get_api_dashboard_stats e1 st)
    = Responded 200 (PStats total pending completed)
    /\ snd (get_api_dashboard_stats e2 st')
       = Responded 200 (PStats (S total) (S pending) completed).
Proof.
  intros Hpost H1 H2.
  destruct (post_201_inv e body st st' p Hpost) as (b & Hb & ->).
  destruct (newBooking_defaults e st body b Hb) as (Hst & Ha & _).
  unfold get_api_dashboard_stats. rewrite !H1, !H2. simpl.
  do 3 eexists. split; [reflexivity|].
  rewrite !count_insert. unfold has_status, active. rewrite Hst, Ha. simpl.
  do 2 f_equal; lia.
Qed.

Lemma X9_create_adds_one_pending_witness :
  exists total pending completed : nat,
    snd (get_api_dashboard_stats env_ok (mkStore [old_booking] 0))
    = Responded 200 (PStats total pending completed)
    /\ snd (get_api_dashboard_stats env_ok
              (insertBooking ana_booking (mkStore [old_booking] 0)))
       = Responded 200 (PStats (S total) (S pending) completed).
Proof.
  apply (X9_create_adds_one_pending env_ok env_ok env_ok ana
           (mkStore [old_booking] 0)
           (insertBooking ana_booking (mkStore [old_booking] 0))
           (PMessage "Booking successful"));
    try reflexivity; intros k; reflexivity.
Defined.

Lemma find_app_new (id : nat) (l : list Booking) (b : Booking) :
  find (has_id id) l = None -> _id b = id ->
  find (has_id id) (l ++ [b]) = Some b.
Proof.
  intros Hnone Hb. induction l as [|x r IH]; simpl in *.
  - unfold has_id. apply Nat.eqb_eq in Hb. now rewrite Hb.
  - destruct (has_id id x); [discriminate | now apply IH].
Qed.

Lemma wf_next_id_fresh (st : store) : wf st -> findById (next_id st) st = None.
Proof.
  intros [_ Hlt]. apply find_absent. intros Hin.
  apply in_map_iff in Hin. destruct Hin as (y & Ey & Hy).
  rewrite Forall_forall in Hlt. specialize (Hlt y Hy). lia.
Qed.

(** X10: a Booking can be read back by its identifier.  On a store with
    unique identifiers, after a create that answered 201 the get-by-id
    handler answers 200 with the new Booking for the new identifier, and for
    every other identifier with what the store held before. *)
Theorem X10_created_booking_is_read_back
    (e e' : env) (body : create_body) (st st' : store) (p : payload) :
  wf st ->
  post_api_bookings e body st = (st', Responded 201 p) ->
  store_up e' 0 = true ->
  exists b,
    _id b = next_id st
    /\ get_api_bookings_id e' (next_id st) st'
       = (st', Responded 200 (PBooking (Some b)))
    /\ forall id, id <> next_id st ->
         get_api_bookings_id e' id st'
         = (st', Responded 200 (PBooking (findById id st))).
Proof.
  intros Hwf Hpost Hs.
  destruct (post_201_inv e body st st' p Hpost) as (b & Hb & ->).
  destruct (newBooking_defaults e st body b Hb) as (_ & _ & Hid & _).
  exists b. split; [exact Hid|].
  unfold get_api_bookings_id. rewrite Hs. split.
  - do 3 f_equal. unfold findById. simpl.
    apply find_app_new; [apply (wf_next_id_fresh st Hwf) | exact Hid].
  - intros id Hne. do 3 f_equal. unfold findById. simpl.
    destruct (find (has_id id) (docs st)) as [x|] eqn:F.
    + now apply find_app_existing.
    + clear - F Hne Hid. induction (docs st) as [|x r IH]; simpl in *.
      * unfold has_id. rewrite Hid.
        destruct (Nat.eqb_spec (next_id st) id); [congruence | reflexivity].
      * destruct (has_id id x); [discriminate | now apply IH].
Qed.

Lemma X10_created_booking_is_read_back_witness :
  exists b,
    _id b = next_id empty_store
    /\ get_api_bookings_id env_ok (next_id empty_store)
         (insertBooking ana_booking empty_store)
       = (insertBooking ana_booking empty_store,
          Responded 200 (PBooking (Some b)))
    /\ forall id, id <> next_id empty_store ->
         get_api_bookings_id env_ok id (insertBooking ana_booking empty_store)
         = (insertBooking ana_booking empty_store,
            Responded 200 (PBooking (findById id empty_store))).
Proof.
  apply (X10_created_booking_is_read_back env_ok env_ok ana empty_store
           (insertBooking ana_booking empty_store) (PMessage "Booking successful")).
  - exact empty_store_wf.
  - reflexivity.
  - reflexivity.
Defined.

(** ** Identifiers that match nothing *)

Lemma delete_first_missing (id : nat) (l : list Booking) :
  find (has_id id) l = None -> delete_first id l = l.
Proof.
  induction l as [|x r IH]; simpl; [reflexivity|].
  unfold has_id at 1. destruct (Nat.eqb (_id x) id); [discriminate|].
  intros H. now rewrite IH.
Qed.

(** X11: no admin operation signals a missing Booking.  For an identifier
    that matches no document, get-by-id answers 200 with null, and
    mark-complete, archive and delete answer 200 with their usual message;
    all four leave the store as it was. *)
Theorem X11_missing_id_is_not_an_error (e : env) (id : nat) (st : store) :
  findById id st = None ->
  store_up e 0 = true ->
  get_api_bookings_id e id st = (st, Responded 200 (PBooking None))
  /\ put_api_bookings_complete e id st
     = (st, Responded 200 (PMessage "Marked as completed"))
  /\ put_api_bookings_archive e id st
     = (st, Responded 200 (PMessage "Archived successfully"))
  /\ delete_api_bookings e id st
     = (st, Responded 200 (PMessage "Deleted successfully")).
Proof.
  intros Hnone Hs.
  unfold get_api_bookings_id, put_api_bookings_complete,
    put_api_bookings_archive, delete_api_bookings,
    findByIdAndUpdate, findByIdAndDelete.
  rewrite Hs, Hnone. unfold findById in Hnone.
  rewrite !update_first_missing, delete_first_missing by assumption.
  now rewrite store_eta.
Qed.

Lemma X11_missing_id_is_not_an_error_witness :
  get_api_bookings_id env_ok 7 sample_store
  = (sample_store, Responded 200 (PBooking None))
  /\ put_api_bookings_complete env_ok 7 sample_store
     = (sample_store, Responded 200 (PMessage "Marked as completed"))
  /\ put_api_bookings_archive env_ok 7 sample_store
     = (sample_store, Responded 200 (PMessage "Archived successfully"))
  /\ delete_api_bookings env_ok 7 sample_store
     = (sample_store, Responded 200 (PMessage "Deleted successfully")).
Proof.
  apply (X11_missing_id_is_not_an_error env_ok 7 sample_store); reflexivity.
Defined.

(** ** The dashboard and the list *)

Lemma pending_completed_le_total (l : list Booking) :
  List.length (filter (fun b => has_status "Pending" b && active b) l)
  + List.length (filter (fun b => has_status "Completed" b && active b) l)
  <= List.length (filter active l).
Proof.
  unfold has_status. induction l as [|x r IH]; simpl; [lia|].
  destruct (active x); rewrite ?andb_true_r, ?andb_false_r; simpl; [|exact IH].
  destruct (String.eqb_spec (status x) "Pending") as [E|E].
  - rewrite E. simpl. lia.
  - destruct (status x =? "Completed"); simpl; lia.
Qed.

(** X12: the dashboard and the list agree.  With the store up, the total of
    the stats handler is the number of Bookings the list handler answers
    with, and the pending and completed counts together never exceed it. *)
Theorem X12_total_is_the_length_of_the_list (e1 e2 : env) (st : store) :
  store_ok e1 ->
  store_up e2 0 = true ->
  exists (total pending completed : nat) (l : list Booking),
    snd (get_api_dashboard_stats e1 st)
    = Responded 200 (PStats total pending completed)
    /\ snd (get_api_bookings e2 st) = Responded 200 (PBookings l)
    /\ List.length l = total
    /\ pending + completed <= total.
Proof.
  intros H1 H2. unfold get_api_dashboard_stats, get_api_bookings.
  rewrite !H1, H2. simpl. do 4 eexists.
  split; [reflexivity|]. split; [reflexivity|]. split.
  - unfold findActiveSorted, countDocuments.
    apply Permutation_length, sort_desc_perm.
  - apply pending_completed_le_total.
Qed.

Lemma X12_total_is_the_length_of_the_list_witness :
  exists (total pending completed : nat) (l : list Booking),
    snd (get_api_dashboard_stats env_ok sample_store)
    = Responded 200 (PStats total pending completed)
    /\ snd (get_api_bookings env_ok sample_store) = Responded 200 (PBookings l)
    /\ List.length l = total
    /\ pending + completed <= total.
Proof.
  apply (X12_total_is_the_length_of_the_list env_ok env_ok sample_store);
    [intros k; reflexivity | reflexivity].
Defined.

(** ** Stores the server can reach *)

Lemma update_first_Forall (P : Booking -> Prop) (id : nat) (f : Booking -> Booking)
    (l : list Booking) :
  (forall b, P b -> P (f b)) -> Forall P l -> Forall P (update_first id f l).
Proof.
  intros Hf. induction 1 as [|x r Hx Hr IH]; simpl; [constructor|].
  destruct (Nat.eqb (_id x) id); constructor; auto.
Qed.

Lemma delete_first_Forall (P : Booking -> Prop) (id : nat) (l : list Booking) :
  Forall P l -> Forall P (delete_first id l).
Proof.
  induction 1 as [|x r Hx Hr IH]; simpl; [constructor|].
  destruct (Nat.eqb (_id x) id); [assumption | now constructor].
Qed.

Lemma serve_status_ok (e : env) (authorization : option string) (op : operation)
    (st : store) :
  status_ok st -> status_ok (fst (serve e authorization op st)).
Proof.
  unfold status_ok. intros Hok.
  destruct (serve_store e authorization op st) as [-> | ->]; [assumption|].
  destruct (handler_store e op st)
    as [-> | [(body & b & _ & Hb & ->) | [(id & _ & ->) | [(id & _ & ->) | (id & _ & ->)]]]];
    simpl.
  - assumption.
  - apply Forall_app. split; [assumption|].
    constructor; [|constructor]. left.
    now destruct (newBooking_defaults e st body b Hb) as (H & _).
  - apply update_first_Forall; [|assumption]. intros b _. now right.
  - apply update_first_Forall; [|assumption]. intros b H. exact H.
  - now apply delete_first_Forall.
Qed.

(** X13: whatever requests were served since the collection was empty,
    identifiers are unique and below the next one to be handed out, and
    every status is "Pending" or "Completed". *)
Theorem X13_reachable_stores_are_well_formed (st : store) :
  reachable st -> wf st /\ status_ok st.
Proof.
  induction 1 as [|e a op st Hr [IHw IHs]].
  - split; [apply empty_store_wf | constructor].
  - split; [now apply serve_wf | now apply serve_status_ok].
Qed.

Lemma X13_reachable_stores_are_well_formed_witness :
  wf (fst (serve env_ok None (Create (Some ana)) empty_store))
  /\ status_ok (fst (serve env_ok None (Create (Some ana)) empty_store)).
Proof.
  apply (X13_reachable_stores_are_well_formed
           (fst (serve env_ok None (Create (Some ana)) empty_store))).
  apply reach_serve, reach_empty.
Defined.

Lemma total_is_pending_plus_completed (l : list Booking) :
  Forall (fun b => status b = "Pending" \/ status b = "Completed") l ->
  List.length (filter active l)
  = List.length (filter (fun b => has_status "Pending" b && active b) l)
    + List.length (filter (fun b => has_status "Completed" b && active b) l).
Proof.
  unfold has_status. induction 1 as [|x r Hx Hr IH]; simpl; [reflexivity|].
  destruct (active x); rewrite ?andb_true_r, ?andb_false_r; simpl; [|exact IH].
  destruct Hx as [-> | ->]; simpl; lia.
Qed.

(** X14: on a store the server can reach, the dashboard's total is the sum
    of its pending and completed counts. *)
Theorem X14_reachable_total_is_pending_plus_completed (e : env) (st : store) :
  reachable st ->
  store_ok e ->
  exists pending completed : nat,
    snd (get_api_dashboard_stats e st)
    = Responded 200 (PStats (pending + completed) pending completed).
Proof.
  intros Hr He.
  assert (Hok : status_ok st).
  { clear He. induction Hr as [|e' a op st Hr IH]; [constructor|].
    now apply serve_status_ok. }
  unfold get_api_dashboard_stats. rewrite !He. simpl.
  do 2 eexists. do 2 f_equal.
  apply total_is_pending_plus_completed, Hok.
Qed.

Lemma X14_reachable_total_is_pending_plus_completed_witness :
  exists pending completed : nat,
    snd (get_api_dashboard_stats env_ok (fst (serve env_ok None (Create (Some ana)) empty_store)))
    = Responded 200 (PStats (pending + completed) pending completed).
Proof.
  apply (X14_reachable_total_is_pending_plus_completed env_ok
           (fst (serve env_ok None (Create (Some ana)) empty_store))).
  - apply reach_serve, reach_empty.
  - intros k. reflexivity.
Defined.

(** ** More on searching *)

Lemma filter_incl_sorted (f : Booking -> bool) (st : store) (b : Booking) :
  (forall x, f x = true -> active x = true) ->
  In b (filter f (docs st)) -> In b (findActiveSorted st).
Proof.
  intros Hf Hb. apply filter_In in Hb. destruct Hb as [Hin Hfb].
  apply findActiveSorted_In. split; [assumption|].
  apply active_false. now apply Hf.
Qed.

(** X15: whatever the pattern, a search finds only active Bookings, each of
    which the list handler lists too, and it answers them in store order. *)
Theorem X15_search_finds_only_listed_bookings
    (e : env) (term : string) (p : list rx_atom) (st : store) :
  rx_compile term = Some p ->
  store_up e 0 = true ->
  exists l : list Booking,
    get_api_bookings_search e term st = (st, Responded 200 (PBookings l))
    /\ Forall (fun b => archived b = false) l
    /\ incl l (findActiveSorted st)
    /\ exists keep : Booking -> bool, l = filter keep (docs st).
Proof.
  intros Hp Hs. unfold get_api_bookings_search. rewrite Hs, Hp.
  eexists. split; [reflexivity|].
  assert (Hact : forall x,
             search_filter (fold_case e) p x = true -> active x = true).
  { intros x H. unfold search_filter in H. now apply andb_true_iff in H. }
  split; [|split].
  - apply Forall_forall. intros b Hb. apply filter_In in Hb.
    apply active_false, Hact, Hb.
  - intros b Hb.
    now apply (filter_incl_sorted (search_filter (fold_case e) p)).
  - now exists (search_filter (fold_case e) p).
Qed.

Lemma X15_search_finds_only_listed_bookings_witness :
  exists l : list Booking,
    get_api_bookings_search env_ok "5.7" sample_store
    = (sample_store, Responded 200 (PBookings l))
    /\ Forall (fun b => archived b = false) l
    /\ incl l (findActiveSorted sample_store)
    /\ exists keep : Booking -> bool, l = filter keep (docs sample_store).
Proof.
  apply (X15_search_finds_only_listed_bookings env_ok "5.7"
           [RxChar 53; RxAny; RxChar 55] sample_store); reflexivity.
Defined.

Lemma ci_contains_folded (fold : N -> N) (t1 t2 s : string) :
  folded fold t1 = folded fold t2 ->
  ci_contains fold t1 s -> ci_contains fold t2 s.
Proof. unfold ci_contains. now intros ->. Qed.

Lemma rx_search_folded (fold : N -> N) (t1 t2 s : string) :
  folded fold t1 = folded fold t2 ->
  rx_test fold (literal_pattern t1) s = rx_test fold (literal_pattern t2) s.
Proof.
  intros H. apply eq_true_iff_eq. rewrite !rx_search_literal.
  split; apply ci_contains_folded; [assumption | now symmetry].
Qed.

(** X16: the case of the letters of a search term does not matter: two
    terms free of metacharacters that agree once the store's engine has
    case-folded them get the same answer; with an engine folding A-Z to
    a-z these are the terms that differ only in the case of letters. *)
Theorem X16_search_ignores_the_case_of_the_term
    (e : env) (t1 t2 : string) (st : store) :
  plain_term t1 = true ->
  plain_term t2 = true ->
  folded (fold_case e) t1 = folded (fold_case e) t2 ->
  get_api_bookings_search e t1 st = get_api_bookings_search e t2 st.
Proof.
  intros H1 H2 Hl. unfold get_api_bookings_search.
  rewrite (rx_compile_plain t1 H1), (rx_compile_plain t2 H2).
  destruct (store_up e 0); [|reflexivity]. do 3 f_equal.
  apply filter_ext. intros b. unfold search_filter.
  now rewrite !(rx_search_folded (fold_case e) t1 t2) by assumption.
Qed.

Lemma X16_search_ignores_the_case_of_the_term_witness :
  get_api_bookings_search env_ok "oIL ch" sample_store
  = get_api_bookings_search env_ok "Oil CH" sample_store.
Proof.
  apply (X16_search_ignores_the_case_of_the_term env_ok "oIL ch" "Oil CH" sample_store);
    reflexivity.
Defined.

(** ** After an archive or a delete *)

Lemma update_first_hit (id : nat) (f : Booking -> Booking) (l : list Booking)
    (x : Booking) :
  (forall b, _id (f b) = _id b) ->
  NoDup (map _id l) ->
  In x (update_first id f l) -> _id x = id ->
  exists b, In b l /\ x = f b.
Proof.
  intros Hf. induction l as [|y r IH]; simpl; [tauto|].
  intros Hnd Hx Hid. inversion Hnd as [|? ? Hy Hr]; subst.
  destruct (Nat.eqb_spec (_id y) (_id x)) as [E|E].
  - destruct Hx as [<- | Hx]; [exists y; auto|].
    exfalso. apply Hy. rewrite E. now apply in_map.
  - destruct Hx as [<- | Hx]; [congruence|].
    destruct (IH Hr Hx eq_refl) as (b & Hb & ->). exists b. auto.
Qed.

(** X17: an archived Booking disappears from the admin views.  On a store
    with unique identifiers, after the archive handler ran for an
    identifier, neither the list handler nor a search, whatever its
    pattern, answers with a Booking of that identifier. *)
Theorem X17_archived_booking_is_not_listed_nor_found
    (e e1 e2 : env) (id : nat) (term : string) (p : list rx_atom) (st : store) :
  wf st ->
  store_up e 0 = true -> store_up e1 0 = true -> store_up e2 0 = true ->
  rx_compile term = Some p ->
  let st' := fst (put_api_bookings_archive e id st) in
  exists listed found : list Booking,
    get_api_bookings e1 st' = (st', Responded 200 (PBookings listed))
    /\ get_api_bookings_search e2 term st' = (st', Responded 200 (PBookings found))
    /\ Forall (fun b => _id b <> id) listed
    /\ Forall (fun b => _id b <> id) found.
Proof.
  intros [Hnd _] Hs H1 H2 Hp st'.
  assert (Hgone : forall x, In x (docs st') -> _id x = id -> archived x = true).
  { intros x Hx Hid. subst st'. unfold put_api_bookings_archive in Hx.
    rewrite Hs in Hx. simpl in Hx.
    destruct (update_first_hit id (set_archived true (now e)) (docs st) x
                (fun b => eq_refl) Hnd Hx Hid) as (b & _ & ->).
    reflexivity. }
  unfold get_api_bookings, get_api_bookings_search. rewrite H1, H2, Hp.
  do 2 eexists. split; [reflexivity|]. split; [reflexivity|].
  split; apply Forall_forall; intros x Hx Hid.
  - apply findActiveSorted_In in Hx. destruct Hx as [Hin Ha].
    rewrite (Hgone x Hin Hid) in Ha. discriminate.
  - apply filter_In in Hx. destruct Hx as [Hin Hf].
    unfold search_filter, active in Hf. rewrite (Hgone x Hin Hid) in Hf.
    discriminate.
Qed.

Lemma X17_archived_booking_is_not_listed_nor_found_witness :
  let st' := fst (put_api_bookings_archive env_ok 0 sample_store) in
  exists listed found : list Booking,
    get_api_bookings env_ok st' = (st', Responded 200 (PBookings listed))
    /\ get_api_bookings_search env_ok "an" st'
       = (st', Responded 200 (PBookings found))
    /\ Forall (fun b => _id b <> 0) listed
    /\ Forall (fun b => _id b <> 0) found.
Proof.
  apply (X17_archived_booking_is_not_listed_nor_found env_ok env_ok env_ok 0 "an"
           [RxChar 97; RxChar 110] sample_store);
    try reflexivity.
  exact sample_store_wf.
Defined.

Lemma delete_first_length (id : nat) (l : list Booking) (b : Booking) :
  find (has_id id) l = Some b ->
  List.length l = S (List.length (delete_first id l)).
Proof.
  induction l as [|x r IH]; simpl; [discriminate|].
  unfold has_id at 1. destruct (Nat.eqb (_id x) id); [reflexivity|].
  intros H. simpl. now rewrite (IH H).
Qed.

(** X18: a deleted Booking is gone, and only that one.  On a store with
    unique identifiers, after the delete handler ran for an identifier,
    get-by-id answers null for it, no document of the store has it, every
    other identifier reads as before, and the store holds one document
    less if the identifier matched one. *)
Theorem X18_delete_removes_exactly_that_booking
    (e e' : env) (id : nat) (st : store) :
  wf st ->
  store_up e 0 = true -> store_up e' 0 = true ->
  let st' := fst (delete_api_bookings e id st) in
  get_api_bookings_id e' id st' = (st', Responded 200 (PBooking None))
  /\ Forall (fun b => _id b <> id) (docs st')
  /\ (forall j, j <> id -> findById j st' = findById j st)
  /\ (forall b, findById id st = Some b ->
        List.length (docs st) = S (List.length (docs st'))).
Proof.
  intros [Hnd _] Hs Hs' st'. subst st'.
  unfold delete_api_bookings, get_api_bookings_id. rewrite Hs, Hs'. simpl.
  assert (Hnone : findById id (findByIdAndDelete id st) = None).
  { unfold findById. simpl. rewrite find_delete_first by assumption.
    now rewrite Nat.eqb_refl. }
  split; [now rewrite Hnone|]. split; [|split].
  - apply Forall_forall. intros x Hx Hid.
    unfold findById in Hnone. simpl in Hnone.
    apply (find_none _ _ Hnone) in Hx. unfold has_id in Hx.
    apply Nat.eqb_neq in Hx. contradiction.
  - intros j Hj. unfold findById. simpl.
    rewrite find_delete_first by assumption.
    apply Nat.eqb_neq in Hj. now rewrite Hj.
  - intros b Hb. now apply (delete_first_length id (docs st) b).
Qed.

Lemma X18_delete_removes_exactly_that_booking_witness :
  let st' := fst (delete_api_bookings env_ok 0 sample_store) in
  get_api_bookings_id env_ok 0 st' = (st', Responded 200 (PBooking None))
  /\ Forall (fun b => _id b <> 0) (docs st')
  /\ (forall j, j <> 0 -> findById j st' = findById j sample_store)
  /\ (forall b, findById 0 sample_store = Some b ->
        List.length (docs sample_store) = S (List.length (docs st'))).
Proof.
  apply (X18_delete_removes_exactly_that_booking env_ok env_ok 0 sample_store);
    try reflexivity.
  exact sample_store_wf.
Defined.

(** ** What no request does *)

(** A projection that the two updates leave alone is left alone by every
    handler, on every document that is still there. *)
Lemma handler_preserves {A : Type} (g : Booking -> A)
    (e : env) (op : operation) (st : store) (id : nat) (b b' : Booking) :
  (forall s t x, g (set_status s t x) = g x) ->
  (forall a t x, g (set_archived a t x) = g x) ->
  wf st ->
  findById id st = Some b ->
  findById id (fst (handler e op st)) = Some b' ->
  g b' = g b.
Proof.
  intros Hgs Hga [Hnd _] Hb Hb'. unfold findById in *.
  destruct (handler_store e op st)
    as [E | [(body & nb & _ & _ & E) | [(i & _ & E) | [(i & _ & E) | (i & _ & E)]]]];
    rewrite E in Hb'; simpl in Hb'.
  - congruence.
  - rewrite (find_app_existing id (docs st) b nb Hb) in Hb'. congruence.
  - rewrite find_update_first, Hb in Hb' by reflexivity.
    destruct (Nat.eqb id i); simpl in Hb'; injection Hb' as <-; auto.
  - rewrite find_update_first, Hb in Hb' by reflexivity.
    destruct (Nat.eqb id i); simpl in Hb'; injection Hb' as <-; auto.
  - rewrite find_delete_first, Hb in Hb' by assumption.
    destruct (Nat.eqb id i); [discriminate | congruence].
Qed.

(** X19: what the customer submitted is never rewritten.  On a store with
    unique identifiers, whatever request is served, a Booking that is still
    in the store afterwards has the name, email, phone, service, date,
    message and creation time it had before. *)
Theorem X19_submitted_fields_are_immutable
    (e : env) (authorization : option string) (op : operation) (st : store)
    (id : nat) (b b' : Booking) :
  wf st ->
  findById id st = Some b ->
  findById id (fst (serve e authorization op st)) = Some b' ->
  _id b' = _id b /\ name b' = name b /\ email b' = email b
  /\ phone b' = phone b /\ service b' = service b /\ date b' = date b
  /\ message b' = message b /\ createdAt b' = createdAt b.
Proof.
  intros Hwf Hb Hb'.
  destruct (serve_store e authorization op st) as [E | E]; rewrite E in Hb'.
  - rewrite Hb in Hb'. injection Hb' as <-. now repeat split.
  - repeat split;
      match goal with
      | |- ?g b' = ?g b =>
          apply (handler_preserves g e op st id b b'); auto
      end.
Qed.

Lemma X19_submitted_fields_are_immutable_witness :
  let b' := set_status "Completed" 2000 ana_booking in
  _id b' = _id ana_booking /\ name b' = name ana_booking
  /\ email b' = email ana_booking /\ phone b' = phone ana_booking
  /\ service b' = service ana_booking /\ date b' = date ana_booking
  /\ message b' = message ana_booking /\ createdAt b' = createdAt ana_booking.
Proof.
  apply (X19_submitted_fields_are_immutable env_later (Some "Bearer good")
           (MarkCompleted 0) sample_store 0 ana_booking
           (set_status "Completed" 2000 ana_booking) sample_store_wf);
    reflexivity.
Defined.

(** X20: a status only ever moves to "Completed".  On a store with unique
    identifiers, whatever request is served, a Booking that is still in the
    store afterwards has the status it had, unless the request was
    mark-complete for it, which leaves it "Completed"; so a completed
    Booking never goes back to pending. *)
Theorem X20_status_only_moves_to_completed
    (e : env) (authorization : option string) (op : operation) (st : store)
    (id : nat) (b b' : Booking) :
  wf st ->
  findById id st = Some b ->
  findById id (fst (serve e authorization op st)) = Some b' ->
  (status b' = status b \/ (op = MarkCompleted id /\ status b' = "Completed"))
  /\ (status b = "Completed" -> status b' = "Completed").
Proof.
  intros Hwf Hb Hb'.
  assert (H : status b' = status b
              \/ (op = MarkCompleted id /\ status b' = "Completed")).
  { destruct (serve_store e authorization op st) as [E | E]; rewrite E in Hb'.
    - left. congruence.
    - destruct Hwf as [Hnd _]. unfold findById in *.
      destruct (handler_store e op st)
        as [E' | [(body & nb & _ & _ & E') | [(i & Eop & E') | [(i & _ & E') | (i & _ & E')]]]];
        rewrite E' in Hb'; simpl in Hb'.
      + left. congruence.
      + left. rewrite (find_app_existing id (docs st) b nb Hb) in Hb'. congruence.
      + rewrite find_update_first, Hb in Hb' by reflexivity.
        destruct (Nat.eqb_spec id i) as [Ei|Ei]; simpl in Hb'; injection Hb' as <-.
        * right. subst i. now split.
        * now left.
      + left. rewrite find_update_first, Hb in Hb' by reflexivity.
        destruct (Nat.eqb id i); simpl in Hb'; injection Hb' as <-; reflexivity.
      + left. rewrite find_delete_first, Hb in Hb' by assumption.
        destruct (Nat.eqb id i); [discriminate | congruence]. }
  split; [exact H|]. intros Hc. destruct H as [H | [_ H]]; congruence.
Qed.

Lemma X20_status_only_moves_to_completed_witness :
  (status (set_archived true 2000 old_booking) = status old_booking
   \/ (Archive 1 = MarkCompleted 1
       /\ status (set_archived true 2000 old_booking) = "Completed"))
  /\ (status old_booking = "Completed" ->
      status (set_archived true 2000 old_booking) = "Completed").
Proof.
  apply (X20_status_only_moves_to_completed env_later (Some "Bearer good")
           (Archive 1) sample_store 1 old_booking
           (set_archived true 2000 old_booking) sample_store_wf);
    reflexivity.
Defined.

Lemma find_app_none (id : nat) (l : list Booking) (nb x : Booking) :
  find (has_id id) l = None ->
  find (has_id id) (l ++ [nb]) = Some x -> x = nb /\ _id nb = id.
Proof.
  induction l as [|y r IH]; simpl.
  - intros _. unfold has_id. destruct (Nat.eqb_spec (_id nb) id); [|discriminate].
    intros H. injection H as <-. now split.
  - destruct (has_id id y); [discriminate | exact IH].
Qed.

(** X21: Bookings come and go by create and delete only.  On a store with
    unique identifiers, a Booking that was in the store is still there
    after any request other than the delete of its identifier; and a
    Booking that appears was made by a create request and carries the next
    identifier of the store. *)
Theorem X21_only_create_adds_only_delete_removes
    (e : env) (authorization : option string) (op : operation) (st : store)
    (id : nat) :
  wf st ->
  let st' := fst (serve e authorization op st) in
  (forall b, findById id st = Some b -> op <> Delete id ->
     exists b', findById id st' = Some b')
  /\ (forall b', findById id st = None -> findById id st' = Some b' ->
        id = next_id st /\ exists body, op = Create body).
Proof.
  intros [Hnd _] st'. subst st'. unfold findById.
  destruct (serve_store e authorization op st) as [E | E]; rewrite E.
  - split; [intros b Hb _; now exists b | intros b' H1 H2; congruence].
  - destruct (handler_store e op st)
      as [E' | [(body & nb & Eop & Hnb & E') | [(i & _ & E') | [(i & _ & E') | (i & Eop & E')]]]];
      rewrite E'; simpl.
    + split; [intros b Hb _; now exists b | intros b' H1 H2; congruence].
    + split.
      * intros b Hb _. exists b. now apply find_app_existing.
      * intros b' Hnone Hb'.
        destruct (find_app_none id (docs st) nb b' Hnone Hb') as [-> Hid].
        destruct (newBooking_defaults e st body nb Hnb) as (_ & _ & Hn & _).
        split; [congruence | now exists (Some body)].
    + rewrite find_update_first by reflexivity. split.
      * intros b Hb _. rewrite Hb. destruct (Nat.eqb id i); eexists; reflexivity.
      * intros b' Hnone. rewrite Hnone. now destruct (Nat.eqb id i).
    + rewrite find_update_first by reflexivity. split.
      * intros b Hb _. rewrite Hb. destruct (Nat.eqb id i); eexists; reflexivity.
      * intros b' Hnone. rewrite Hnone. now destruct (Nat.eqb id i).
    + rewrite find_delete_first by assumption. split.
      * intros b Hb Hop. rewrite Hb.
        destruct (Nat.eqb_spec id i) as [Ei|Ei]; [|now exists b].
        subst i. contradiction.
      * intros b' Hnone. rewrite Hnone. now destruct (Nat.eqb id i).
Qed.

Lemma X21_only_create_adds_only_delete_removes_witness :
  let st' := fst (serve env_ok (Some "Bearer good") (Delete 1) sample_store) in
  (forall b, findById 0 sample_store = Some b -> Delete 1 <> Delete 0 ->
     exists b', findById 0 st' = Some b')
  /\ (forall b', findById 0 sample_store = None -> findById 0 st' = Some b' ->
        0 = next_id sample_store /\ exists body, Delete 1 = Create body).
Proof.
  apply (X21_only_create_adds_only_delete_removes env_ok (Some "Bearer good")
           (Delete 1) sample_store 0 sample_store_wf).
Defined.

(** ** Updates composed *)

Lemma update_first_twice (id : nat) (f g : Booking -> Booking) (l : list Booking) :
  (forall b, _id (g b) = _id b) ->
  update_first id f (update_first id g l)
  = update_first id (fun b => f (g b)) l.
Proof.
  intros Hg. induction l as [|x r IH]; simpl; [reflexivity|].
  destruct (Nat.eqb (_id x) id) eqn:E; simpl.
  - now rewrite Hg, E.
  - now rewrite E, IH.
Qed.

Lemma update_first_ext (id : nat) (f g : Booking -> Booking) (l : list Booking) :
  (forall b, f b = g b) -> update_first id f l = update_first id g l.
Proof.
  intros H. induction l as [|x r IH]; simpl; [reflexivity|].
  now rewrite H, IH.
Qed.

(** X22: repeating an update changes nothing but the timestamp, and the two
    updates commute.  Completing (or archiving) a Booking a second time
    gives the store that the second request alone would give; completing
    then archiving gives the same store as archiving then completing. *)
Theorem X22_updates_are_idempotent_and_commute (e1 e2 : env) (id : nat) (st : store) :
  store_up e1 0 = true ->
  store_up e2 0 = true ->
  fst (put_api_bookings_complete e2 id (fst (put_api_bookings_complete e1 id st)))
  = fst (put_api_bookings_complete e2 id st)
  /\ fst (put_api_bookings_archive e2 id (fst (put_api_bookings_archive e1 id st)))
     = fst (put_api_bookings_archive e2 id st)
  /\ fst (put_api_bookings_archive e2 id (fst (put_api_bookings_complete e1 id st)))
     = fst (put_api_bookings_complete e2 id (fst (put_api_bookings_archive e1 id st))).
Proof.
  intros H1 H2. unfold put_api_bookings_complete, put_api_bookings_archive.
  rewrite H1, H2. simpl. unfold findByIdAndUpdate. simpl.
  rewrite !update_first_twice by reflexivity.
  repeat split; f_equal; apply update_first_ext; reflexivity.
Qed.

Lemma X22_updates_are_idempotent_and_commute_witness :
  fst (put_api_bookings_complete env_later 0
         (fst (put_api_bookings_complete env_ok 0 sample_store)))
  = fst (put_api_bookings_complete env_later 0 sample_store)
  /\ fst (put_api_bookings_archive env_later 0
            (fst (put_api_bookings_archive env_ok 0 sample_store)))
     = fst (put_api_bookings_archive env_later 0 sample_store)
  /\ fst (put_api_bookings_archive env_later 0
            (fst (put_api_bookings_complete env_ok 0 sample_store)))
     = fst (put_api_bookings_complete env_later 0
              (fst (put_api_bookings_archive env_ok 0 sample_store))).
Proof.
  apply (X22_updates_are_idempotent_and_commute env_ok env_later 0 sample_store);
    reflexivity.
Defined.

(** ** Dashboard counts after an archive or a delete *)

Lemma delete_first_at (id : nat) (l1 l2 : list Booking) (b : Booking) :
  Forall (fun x => _id x <> id) l1 -> _id b = id ->
  delete_first id (l1 ++ b :: l2) = (l1 ++ l2)%list.
Proof.
  intros Hl1 Hb. induction Hl1 as [|x r Hx Hr IH]; simpl.
  - apply Nat.eqb_eq in Hb. now rewrite Hb.
  - apply Nat.eqb_neq in Hx. now rewrite Hx, IH.
Qed.

Lemma count_after_delete (f : Booking -> bool) (id : nat) (st : store) (b : Booking) :
  findById id st = Some b ->
  countDocuments f (findByIdAndDelete id st) + indicator (f b)
  = countDocuments f st.
Proof.
  intros H. unfold countDocuments, findByIdAndDelete. simpl.
  destruct (find_split id (docs st) b H) as (l1 & l2 & -> & Hl1 & Hb).
  rewrite (delete_first_at id l1 l2 b Hl1 Hb), !count_app. simpl.
  destruct (f b); simpl; lia.
Qed.

(** X23: archiving an active Booking and deleting it do the same to the
    dashboard: either way the total drops by exactly one, the count of the
    Booking's own status drops by one, and the other count stays. *)
Theorem X23_archive_and_delete_take_one_off_the_counts
    (e e1 e2 e3 : env) (id : nat) (st : store) (b : Booking) :
  store_up e 0 = true ->
  store_ok e1 -> store_ok e2 -> store_ok e3 ->
  findById id st = Some b ->
  archived b = false ->
  exists total pending completed : nat,
    snd (get_api_dashboard_stats e1 st)
    = Responded 200
        (PStats (S total)
                (pending + indicator (has_status "Pending" b))
                (completed + indicator (has_status "Completed" b)))
    /\ snd (get_api_dashboard_stats e2 (fst (put_api_bookings_archive e id st)))
       = Responded 200 (PStats total pending completed)
    /\ snd (get_api_dashboard_stats e3 (fst (delete_api_bookings e id st)))
       = Responded 200 (PStats total pending completed).
Proof.
  intros Hs H1 H2 H3 Hb Ha.
  unfold get_api_dashboard_stats, put_api_bookings_archive, delete_api_bookings.
  rewrite !H1, !H2, !H3, Hs. simpl.
  set (g := set_archived true (now e)).
  set (pend := fun x => has_status "Pending" x && active x).
  set (comp := fun x => has_status "Completed" x && active x).
  pose proof (count_after_update active id g st b Hb) as At.
  pose proof (count_after_update pend id g st b Hb) as Ap.
  pose proof (count_after_update comp id g st b Hb) as Ac.
  pose proof (count_after_delete active id st b Hb) as Dt.
  pose proof (count_after_delete pend id st b Hb) as Dp.
  pose proof (count_after_delete comp id st b Hb) as Dc.
  assert (Eab : active b = true) by (unfold active; now rewrite Ha).
  assert (Eag : active (g b) = false) by reflexivity.
  assert (Epb : pend b = has_status "Pending" b)
    by (unfold pend; now rewrite Eab, andb_true_r).
  assert (Ecb : comp b = has_status "Completed" b)
    by (unfold comp; now rewrite Eab, andb_true_r).
  assert (Epg : pend (g b) = false)
    by (unfold pend; now rewrite Eag, andb_false_r).
  assert (Ecg : comp (g b) = false)
    by (unfold comp; now rewrite Eag, andb_false_r).
  rewrite Eab, Eag in At. rewrite Epb, Epg in Ap. rewrite Ecb, Ecg in Ac.
  rewrite Eab in Dt. rewrite Epb in Dp. rewrite Ecb in Dc.
  simpl in At, Ap, Ac, Dt.
  exists (countDocuments active (findByIdAndDelete id st)),
    (countDocuments pend (findByIdAndDelete id st)),
    (countDocuments comp (findByIdAndDelete id st)).
  repeat split; do 2 f_equal; lia.
Qed.

Lemma X23_archive_and_delete_take_one_off_the_counts_witness :
  exists total pending completed : nat,
    snd (get_api_dashboard_stats env_ok sample_store)
    = Responded 200
        (PStats (S total)
                (pending + indicator (has_status "Pending" ana_booking))
                (completed + indicator (has_status "Completed" ana_booking)))
    /\ snd (get_api_dashboard_stats env_ok
              (fst (put_api_bookings_archive env_ok 0 sample_store)))
       = Responded 200 (PStats total pending completed)
    /\ snd (get_api_dashboard_stats env_ok
              (fst (delete_api_bookings env_ok 0 sample_store)))
       = Responded 200 (PStats total pending completed).
Proof.
  apply (X23_archive_and_delete_take_one_off_the_counts env_ok env_ok env_ok env_ok
           0 sample_store ana_booking);
    try reflexivity; intros k; reflexivity.
Defined.

(** ** Headers with an empty token segment *)

(** X24: a header in which the first space is followed by another space, or
    by nothing, has an empty token segment: on an admin route it is
    answered 401 {message: "Invalid token format"} whatever follows, even a
    token that would verify, and the store is left as it was. *)
Theorem X24_empty_token_segment_is_401
    (e : env) (op : operation) (st : store) (scheme rest : string) :
  protected op = true ->
  no_space scheme = true ->
  serve e (Some (scheme ++ " ")) op st
  = (st, Responded 401 (PMessage "Invalid token format"))
  /\ serve e (Some (scheme ++ " " ++ " " ++ rest)) op st
     = (st, Responded 401 (PMessage "Invalid token format")).
Proof.
  intros Hp Hs. unfold serve. rewrite Hp. unfold verifyToken, token_of.
  assert (Hne : forall tail, (scheme ++ String " " tail =? "") = false).
  { intros tail. apply String.eqb_neq. destruct scheme; discriminate. }
  split.
  - change (scheme ++ " ") with (scheme ++ String " " "").
    now rewrite Hne, split_space_word_app.
  - change (scheme ++ " " ++ " " ++ rest)
      with (scheme ++ String " " (String " " rest)).
    rewrite Hne, split_space_word_app by assumption. reflexivity.
Qed.

Lemma X24_empty_token_segment_is_401_witness :
  serve env_ok (Some ("Bearer" ++ " ")) ListActive sample_store
  = (sample_store, Responded 401 (PMessage "Invalid token format"))
  /\ serve env_ok (Some ("Bearer" ++ " " ++ " " ++ "good")) ListActive sample_store
     = (sample_store, Responded 401 (PMessage "Invalid token format")).
Proof.
  apply (X24_empty_token_segment_is_401 env_ok ListActive sample_store "Bearer" "good");
    reflexivity.
Defined.
